(** * Refract (Light/Dark Mode Switcher): the switching engine of script.js

    A shallow embedding of the plugin's core: the naming micro-grammar
    ([detectCurrentMode], [buildTargetName]), the catalog lookups, the two
    switch paths ([switchLayerStyle], [switchSymbolMode]), the per-layer
    dispatcher ([processCurrentLayer]), the recursive walk ([processLayer])
    and the entry points ([switchMode], [toggleMode]).

    Conventions of the embedding
    - A JavaScript string is a [string]: a sequence of code units below 256
      (the Latin-1 range).  [split], [join], [toLowerCase] and [trim] are
      exact on that range; [toUpperCase] is used on the first letter of a
      mode only.
    - A host object (layer, shared style, symbol master, document) is a record
      of the attributes the script reads and writes.  The layers of a
      selection are the roots of disjoint trees; a walk returns the trees as
      it leaves them.
    - A host call that throws is modelled by the [faults] table of a layer:
      the same call on the same layer throws every time.  [try]/[catch] is
      written out with the [Completion] type. *)

From Stdlib Require Import Strings.String Strings.Ascii Lists.List Arith.PeanoNat
  Bool.Bool Numbers.DecimalString micromega.Lia.
Import ListNotations.
Open Scope string_scope.
Open Scope list_scope.

(* ================================================================== *)
(** ** Constants *)

(** [const MODES = { LIGHT: 'light', DARK: 'dark' }] *)
Inductive Mode : Type := LIGHT | DARK.

Definition mode_str (m : Mode) : string :=
  match m with LIGHT => "light" | DARK => "dark" end.

Definition Mode_eqb (a b : Mode) : bool :=
  match a, b with LIGHT, LIGHT | DARK, DARK => true | _, _ => false end.

(** [const NAMING_SEPARATOR = '/'] *)
Definition NAMING_SEPARATOR : string := "/".

(* ================================================================== *)
(** ** JavaScript string primitives used by the script *)

Section JsStrings.

(** [s.startsWith(p)] *)
Fixpoint startsWith (p s : string) : bool :=
  match p, s with
  | EmptyString, _ => true
  | String a p', String b s' => Ascii.eqb a b && startsWith p' s'
  | String _ _, EmptyString => false
  end.

(** [s.includes(p)] *)
Fixpoint includes (p s : string) : bool :=
  startsWith p s ||
  match s with
  | EmptyString => false
  | String _ s' => includes p s'
  end.

(** Puts a character in front of the first segment of a segment list. *)
Definition push_head (c : ascii) (segs : list string) : list string :=
  match segs with
  | [] => [String c EmptyString]
  | p :: ps => String c p :: ps
  end.

(** The scan of [s.split(sep)] for a non-empty [sep]; [skip] counts the
    characters of a matched separator that are still to be consumed. *)
Fixpoint split_scan (sep : string) (skip : nat) (s : string) : list string :=
  match s with
  | EmptyString => [EmptyString]
  | String c s' =>
      match skip with
      | S k => split_scan sep k s'
      | O =>
          if startsWith sep s
          then EmptyString :: split_scan sep (String.length sep - 1) s'
          else push_head c (split_scan sep 0 s')
      end
  end.

Fixpoint chars (s : string) : list string :=
  match s with
  | EmptyString => []
  | String c s' => String c EmptyString :: chars s'
  end.

(** [s.split(sep)] *)
Definition split (sep s : string) : list string :=
  match sep with
  | EmptyString => chars s
  | String _ _ => split_scan sep 0 s
  end.

(** [parts.join(sep)] *)
Definition join (sep : string) (parts : list string) : string :=
  String.concat sep parts.

Definition in_range (lo hi : nat) (c : ascii) : bool :=
  Nat.leb lo (nat_of_ascii c) && Nat.leb (nat_of_ascii c) hi.

(** Upper-case letters of the Latin-1 range: A-Z and U+00C0..U+00DE
    without the multiplication sign U+00D7. *)
Definition is_upper (c : ascii) : bool :=
  in_range 65 90 c || (in_range 192 222 c && negb (Nat.eqb (nat_of_ascii c) 215)).

(** Lower-case letters that have an upper-case form in the same range. *)
Definition is_lower (c : ascii) : bool :=
  in_range 97 122 c || (in_range 224 254 c && negb (Nat.eqb (nat_of_ascii c) 247)).

Definition lower_char (c : ascii) : ascii :=
  if is_upper c then ascii_of_nat (nat_of_ascii c + 32) else c.

Definition upper_char (c : ascii) : ascii :=
  if is_lower c then ascii_of_nat (nat_of_ascii c - 32) else c.

Fixpoint map_chars (f : ascii -> ascii) (s : string) : string :=
  match s with
  | EmptyString => EmptyString
  | String c s' => String (f c) (map_chars f s')
  end.

(** [s.toLowerCase()] and [s.toUpperCase()] *)
Definition toLowerCase : string -> string := map_chars lower_char.
Definition toUpperCase : string -> string := map_chars upper_char.

(** White space and line terminators of ECMAScript below 256:
    TAB, LF, VT, FF, CR, SPACE and NO-BREAK SPACE. *)
Definition is_space (c : ascii) : bool :=
  in_range 9 13 c || Nat.eqb (nat_of_ascii c) 32 || Nat.eqb (nat_of_ascii c) 160.

Fixpoint trimStart (s : string) : string :=
  match s with
  | EmptyString => EmptyString
  | String c s' => if is_space c then trimStart s' else s
  end.

Fixpoint trimEnd (s : string) : string :=
  match s with
  | EmptyString => EmptyString
  | String c s' =>
      match trimEnd s' with
      | EmptyString => if is_space c then EmptyString else String c EmptyString
      | t => String c t
      end
  end.

(** [s.trim()] *)
Definition trim (s : string) : string := trimEnd (trimStart s).

(** [s.charAt(0)] and [s.slice(1)] *)
Definition charAt0 (s : string) : string :=
  match s with
  | EmptyString => EmptyString
  | String c _ => String c EmptyString
  end.

Definition slice1 (s : string) : string :=
  match s with
  | EmptyString => EmptyString
  | String _ s' => s'
  end.

(** The text of a count inside a template literal. *)
Definition show_nat (n : nat) : string :=
  NilEmpty.string_of_uint (Nat.to_uint n).

End JsStrings.

(** [parts[i] = v] on an array; an index past the end extends the array,
    the holes are rendered as empty strings by [join]. *)
Fixpoint array_set (i : nat) (v : string) (parts : list string) : list string :=
  match i, parts with
  | O, [] => [v]
  | O, _ :: ps => v :: ps
  | S k, [] => EmptyString :: array_set k v []
  | S k, p :: ps => p :: array_set k v ps
  end.

(* ================================================================== *)
(** ** NameCodec: [detectCurrentMode] and [buildTargetName] *)

(** [detectCurrentMode(layer)], script.js 682-699.  Every call site passes
    the object [{ name: () => currentName }], so the function is taken on
    the name itself; its [try] block contains no call that can throw. *)
Definition detectCurrentMode (name : string) : option Mode :=
  let parts := split NAMING_SEPARATOR name in
  if Nat.leb 2 (List.length parts) then
    let modePart := trim (toLowerCase (nth 1 parts EmptyString)) in
    if String.eqb modePart (mode_str LIGHT) then Some LIGHT
    else if String.eqb modePart (mode_str DARK) then Some DARK
    else None
  else None.

(** [buildTargetName(currentName, targetMode)], script.js 707-721. *)
Definition buildTargetName (currentName targetMode : string) : string :=
  let parts := split NAMING_SEPARATOR currentName in
  if Nat.leb 2 (List.length parts) then
    join NAMING_SEPARATOR (array_set 1 targetMode parts)
  else currentName.

(* ================================================================== *)
(** ** Host objects *)

(** A shared style of the document: its object ID, its name and the style
    properties it defines. *)
Record SharedStyle : Type := mkSharedStyle {
  style_id : string;
  style_name : string;
  style_props : string
}.

Record SymbolMaster : Type := mkSymbolMaster {
  symbol_id : string;
  symbol_name : string
}.

(** The catalogs of the document every layer belongs to. *)
Record Document : Type := mkDocument {
  sharedTextStyles : list SharedStyle;
  sharedLayerStyles : list SharedStyle;
  allSymbols : list SymbolMaster
}.

(** The host calls of a layer that may throw. *)
Inductive HostCall : Type :=
| CName            (* layer.name() *)
| CClass           (* layer.class() *)
| CFromNative      (* sketch.fromNative(layer) *)
| CDocumentData    (* layer.documentData() *)
| CSetSharedStyle  (* domLayer.sharedStyle = ... *)
| CSetStyle        (* domLayer.style = ... *)
| CSymbolMaster    (* layer.symbolMaster() *)
| COverrides       (* symbolInstance.overrides() *)
| CChangeInstance  (* symbolInstance.changeInstanceToSymbol(...) *)
| CSetOverrides    (* symbolInstance.setOverrides(...) *)
| CLayers.         (* layer.layers() *)

(** The attributes of one layer.  [faults c = Some msg] says that the call
    [c] on this layer throws an error whose message is [msg].
    [symbolMaster = None] stands for a layer without that method as well as
    for a method that returns null. *)
Record LayerAttrs : Type := mkLayerAttrs {
  layer_name : string;
  class_name : string;
  sharedStyle : option SharedStyle;
  style : string;
  symbolMaster : option SymbolMaster;
  overrides : option string;
  faults : HostCall -> option string
}.

(** A layer with its children; [None] for a layer that has no [layers]. *)
#[warnings="-register-all"]
Inductive Layer : Type :=
| Node (attrs : LayerAttrs) (layers : option (list Layer)).

(** The result object [{ switched, skipped }]. *)
Record Result : Type := mkResult { switched : nat; skipped : nat }.

Definition result_add (r1 r2 : Result) : Result :=
  mkResult (switched r1 + switched r2) (skipped r1 + skipped r2).

Definition zero : Result := mkResult 0 0.
Definition one_switched : Result := mkResult 1 0.
Definition one_skipped : Result := mkResult 0 1.

(* ================================================================== *)
(** ** Host calls on one layer: state and exceptions *)

Inductive Completion (A : Type) : Type :=
| Normal (a : A)
| Throw (message : string).
Arguments Normal {A} a.
Arguments Throw {A} message.

(** A computation on one layer: it may update the layer's attributes and
    either returns or throws. *)
Definition Host (A : Type) : Type := LayerAttrs -> LayerAttrs * Completion A.

Definition ret {A : Type} (x : A) : Host A := fun a => (a, Normal x).

Definition bind {A B : Type} (m : Host A) (k : A -> Host B) : Host B :=
  fun a =>
    match m a with
    | (a', Normal x) => k x a'
    | (a', Throw msg) => (a', Throw msg)
    end.

Notation "x <- m ;; k" := (bind m (fun x => k))
  (at level 61, m at next level, right associativity).
Notation "m ;;; k" := (bind m (fun _ => k))
  (at level 61, right associativity).

(** The call [c] on the layer. *)
Definition call (c : HostCall) : Host unit :=
  fun a =>
    match faults a c with
    | Some msg => (a, Throw msg)
    | None => (a, Normal tt)
    end.

Definition read {A : Type} (f : LayerAttrs -> A) : Host A :=
  fun a => (a, Normal (f a)).

Definition set_sharedStyle (s : SharedStyle) : Host unit :=
  fun a => (mkLayerAttrs (layer_name a) (class_name a) (Some s) (style a)
              (symbolMaster a) (overrides a) (faults a), Normal tt).

Definition set_style (p : string) : Host unit :=
  fun a => (mkLayerAttrs (layer_name a) (class_name a) (sharedStyle a) p
              (symbolMaster a) (overrides a) (faults a), Normal tt).

Definition set_symbolMaster (m : SymbolMaster) : Host unit :=
  fun a => (mkLayerAttrs (layer_name a) (class_name a) (sharedStyle a) (style a)
              (Some m) (overrides a) (faults a), Normal tt).

Definition set_overrides (o : string) : Host unit :=
  fun a => (mkLayerAttrs (layer_name a) (class_name a) (sharedStyle a) (style a)
              (symbolMaster a) (Some o) (faults a), Normal tt).

(** [currentMode === targetMode] for a possibly null [currentMode]. *)
Definition is_mode (currentMode : option Mode) (targetMode : Mode) : bool :=
  match currentMode with
  | Some m => Mode_eqb m targetMode
  | None => false
  end.

(* ================================================================== *)
(** ** ResourceIndex *)

(** [document.sharedTextStyles.find(style => style.name === name)] and the
    same on [sharedLayerStyles]. *)
Definition findStyle (catalog : list SharedStyle) (name : string)
  : option SharedStyle :=
  find (fun st => String.eqb (style_name st) name) catalog.

(** [findSymbolByName(document, symbolName)], script.js 729-745: the first
    master of [allSymbols()] with that name.  The document data of a layer
    and the document are one record here: [documentData()] on either is the
    identity. *)
Definition findSymbolByName (doc : Document) (symbolName : string)
  : option SymbolMaster :=
  find (fun sy => String.eqb (symbol_name sy) symbolName) (allSymbols doc).

(** [sharedStyles.sharedStyleWithID(id)] on the layer styles. *)
Definition sharedStyleWithID (catalog : list SharedStyle) (id : string)
  : option SharedStyle :=
  find (fun st => String.eqb (style_id st) id) catalog.

(* ================================================================== *)
(** ** SwitchEngine *)

Section Engine.

Variable doc : Document.
Variable targetMode : Mode.

(** The body shared by the text branch (script.js 329-390, with
    [sharedTextStyles]) and the layer branch (428-482, with
    [sharedLayerStyles]) of [switchLayerStyle].  The document has been
    read by the caller already ([call CDocumentData]), reading it again in
    the text branch cannot throw. *)
Definition switchAppliedStyle (catalog : list SharedStyle) : Host Result :=
  applied <- read sharedStyle ;;
  match applied with
  | Some current =>
      let currentName := style_name current in
      let currentMode := detectCurrentMode currentName in
      match currentMode with
      | Some m =>
          if negb (Mode_eqb m targetMode) then
            let targetStyleName :=
              buildTargetName currentName (mode_str targetMode) in
            match findStyle catalog targetStyleName with
            | Some targetStyle =>
                call CSetSharedStyle ;;;
                set_sharedStyle targetStyle ;;;
                call CSetStyle ;;;
                set_style (style_props targetStyle) ;;;
                ret one_switched
            | None => ret one_skipped
            end
          else ret one_skipped          (* already in target mode *)
      | None => ret one_skipped         (* no naming convention *)
      end
  | None => ret one_skipped             (* no shared style *)
  end.

(** The [try] block of [switchLayerStyle], script.js 298-482. *)
Definition switchLayerStyle_body : Host Result :=
  call CClass ;;;
  cls <- read class_name ;;
  call CName ;;;
  call CFromNative ;;;
  call CDocumentData ;;;
  if String.eqb cls "MSTextLayer"
  then switchAppliedStyle (sharedTextStyles doc)
  else switchAppliedStyle (sharedLayerStyles doc).

(** The [catch] block of the two switch paths, [result.skipped = 1], after
    a [try] block in which [result] is still [{0,0}] at every call. *)
Definition caught (p : LayerAttrs * Completion Result) : LayerAttrs * Result :=
  match p with
  | (a', Normal r) => (a', r)
  | (a', Throw _) => (a', one_skipped)
  end.

(** [switchLayerStyle(layer, targetMode)], script.js 295-489. *)
Definition switchLayerStyle (a : LayerAttrs) : LayerAttrs * Result :=
  caught (switchLayerStyle_body a).

(** The [try] block of [switchSymbolMode], script.js 219-280. *)
Definition switchSymbolMode_body : Host Result :=
  call CSymbolMaster ;;;
  currentSymbol <- read symbolMaster ;;
  match currentSymbol with
  | None => call CName ;;; ret zero
  | Some current =>
      let currentName := symbol_name current in
      let currentMode := detectCurrentMode currentName in
      if is_mode currentMode targetMode then ret one_skipped
      else
        let targetSymbolName :=
          buildTargetName currentName (mode_str targetMode) in
        call CDocumentData ;;;
        match findSymbolByName doc targetSymbolName with
        | Some targetSymbol =>
            call COverrides ;;;
            ov <- read overrides ;;
            call CChangeInstance ;;;
            set_symbolMaster targetSymbol ;;;
            match ov with
            | Some o => call CSetOverrides ;;; set_overrides o
            | None => ret tt
            end ;;;
            ret one_switched
        | None => ret one_skipped
        end
  end.

(** [switchSymbolMode(symbolInstance, targetMode)], script.js 216-287. *)
Definition switchSymbolMode (a : LayerAttrs) : LayerAttrs * Result :=
  caught (switchSymbolMode_body a).

(** The test [isSymbolInstance] of script.js 184-187 and 638-641. *)
Definition isSymbolInstance : Host bool :=
  call CClass ;;;
  cls <- read class_name ;;
  if String.eqb cls "MSSymbolInstance" then ret true
  else if includes "MSSymbolInstance" cls then ret true
  else
    master <- read symbolMaster ;;
    match master with
    | Some _ => call CSymbolMaster ;;; ret true
    | None => ret false
    end.

(** The [catch] blocks of [processCurrentLayer] and [processLayer] print
    [layer.name()]: they throw again when that call throws. *)
Definition log_error_with_name (result : Result) : Host Result :=
  call CName ;;; ret result.

(** [processCurrentLayer(layer, targetMode)], script.js 168-208. *)
Definition processCurrentLayer : Host Result :=
  fun a =>
    match (call CName ;;; call CClass) a with
    | (a0, Throw _) => log_error_with_name zero a0
    | (a0, Normal _) =>
        let '(a1, styleResult) := switchLayerStyle a0 in
        let result := result_add zero styleResult in
        if Nat.eqb (switched result) 0 then
          match isSymbolInstance a1 with
          | (a2, Throw _) => log_error_with_name result a2
          | (a2, Normal true) =>
              let '(a3, symbolResult) := switchSymbolMode a2 in
              (a3, Normal (result_add result symbolResult))
          | (a2, Normal false) => (a2, Normal result)
          end
        else (a1, Normal result)
    end.

(** The loop [for (i ...) { r = process(list[i]); result += r }]: it
    returns the layers after the loop, the accumulated [result] and how the
    loop ended; a throw leaves the loop, the layers after the throwing one
    are not visited. *)
Definition process_all (process : Layer -> Layer * Completion Result)
  : list Layer -> Result -> list Layer * Result * Completion unit :=
  fix loop (ls : list Layer) (acc : Result) :=
    match ls with
    | [] => ([], acc, Normal tt)
    | l :: rest =>
        match process l with
        | (l', Normal r) =>
            let '(rest', total, c) := loop rest (result_add acc r) in
            (l' :: rest', total, c)
        | (l', Throw msg) => (l' :: rest, acc, Throw msg)
        end
    end.

(** [processLayer(layer, targetMode)], script.js 134-160. *)
Fixpoint processLayer (l : Layer) : Layer * Completion Result :=
  match l with
  | Node a ch =>
      match processCurrentLayer a with
      | (a', Throw _) =>
          let '(a'', c) := log_error_with_name zero a' in (Node a'' ch, c)
      | (a', Normal layerResult) =>
          let result := result_add zero layerResult in
          match ch with
          | None => (Node a' None, Normal result)
          | Some children =>
              match call CLayers a' with
              | (_, Throw _) =>
                  let '(a'', c) := log_error_with_name result a' in
                  (Node a'' ch, c)
              | (_, Normal _) =>
                  match process_all processLayer children result with
                  | (children', total, Normal _) =>
                      (Node a' (Some children'), Normal total)
                  | (children', partial, Throw _) =>
                      let '(a'', c) := log_error_with_name partial a' in
                      (Node a'' (Some children'), c)
                  end
              end
          end
      end
  end.

(** The own attributes consulted by [findModeInLayer], script.js 603-656:
    the text style, then the layer style found by its object ID, then the
    symbol master. *)
Definition findMode_own : Host (option Mode) :=
  call CClass ;;;
  cls <- read class_name ;;
  applied <- read sharedStyle ;;
  let textMode :=
    if String.eqb cls "MSTextLayer" then
      match applied with
      | Some s => detectCurrentMode (style_name s)
      | None => None
      end
    else None in
  match textMode with
  | Some mode => ret (Some mode)
  | None =>
      layerMode <-
        match applied with
        | Some s =>
            call CDocumentData ;;;
            ret match sharedStyleWithID (sharedLayerStyles doc) (style_id s) with
                | Some currentStyle => detectCurrentMode (style_name currentStyle)
                | None => None
                end
        | None => ret None
        end ;;
      match layerMode with
      | Some mode => ret (Some mode)
      | None =>
          isSym <- isSymbolInstance ;;
          if isSym then
            call CSymbolMaster ;;;
            master <- read symbolMaster ;;
            ret match master with
                | Some sm => detectCurrentMode (symbol_name sm)
                | None => None
                end
          else ret None
      end
  end.

(** The loop with [break]/[return] on the first detected mode. *)
Definition first_mode (find_mode : Layer -> option Mode)
  : list Layer -> option Mode :=
  fix loop (ls : list Layer) :=
    match ls with
    | [] => None
    | l :: rest =>
        match find_mode l with
        | Some mode => Some mode
        | None => loop rest
        end
    end.

(** [findModeInLayer(layer)], script.js 601-675; every throw inside ends
    in [return null]. *)
Fixpoint findModeInLayer (l : Layer) : option Mode :=
  match l with
  | Node a ch =>
      match findMode_own a with
      | (_, Throw _) => None
      | (_, Normal (Some mode)) => Some mode
      | (_, Normal None) =>
          match ch with
          | None => None
          | Some children =>
              match call CLayers a with
              | (_, Throw _) => None
              | (_, Normal _) => first_mode findModeInLayer children
              end
          end
      end
  end.

End Engine.

(* ================================================================== *)
(** ** Entry points *)

(** The plugin context: the selected layers, the document they belong to and
    the messages shown to the user so far (the latest first). *)
Record Context : Type := mkContext {
  selection : list Layer;
  document : Document;
  shown : list string
}.

(** [showMessage(context, message)], script.js 898-904. *)
Definition showMessage (ctx : Context) (message : string) : Context :=
  mkContext (selection ctx) (document ctx) (message :: shown ctx).

Definition with_selection (ctx : Context) (sel : list Layer) : Context :=
  mkContext sel (document ctx) (shown ctx).

(** [targetMode.charAt(0).toUpperCase() + targetMode.slice(1)] *)
Definition modeText (targetMode : Mode) : string :=
  toUpperCase (charAt0 (mode_str targetMode)) ++ slice1 (mode_str targetMode).

(** The completion message of [switchMode], script.js 116-121. *)
Definition report (targetMode : Mode) (r : Result) : string :=
  "Switched to " ++ modeText targetMode ++ " Mode: "
    ++ show_nat (switched r) ++ " changed, "
    ++ show_nat (skipped r) ++ " skipped".

(** [switchMode(context, targetMode)], script.js 95-126. *)
Definition switchMode (ctx : Context) (targetMode : Mode) : Context :=
  if Nat.eqb (List.length (selection ctx)) 0 then
    showMessage ctx "Please select layers to switch modes"
  else
    match process_all (processLayer (document ctx) targetMode)
            (selection ctx) zero with
    | (sel', total, Normal _) =>
        showMessage (with_selection ctx sel') (report targetMode total)
    | (sel', _, Throw msg) =>
        showMessage (with_selection ctx sel') ("Error: " ++ msg)
    end.

Definition switchToDark (ctx : Context) : Context := switchMode ctx DARK.
Definition switchToLight (ctx : Context) : Context := switchMode ctx LIGHT.

(** The target of the toggle, script.js 63-64:
    [detectedMode === MODES.LIGHT ? MODES.DARK : MODES.DARK]. *)
Definition toggleTarget (detectedMode : option Mode) : Mode :=
  if is_mode detectedMode LIGHT then DARK else DARK.

(** [toggleMode(context)], script.js 42-68. *)
Definition toggleMode (ctx : Context) : Context :=
  if Nat.eqb (List.length (selection ctx)) 0 then
    showMessage ctx "Please select layers to toggle"
  else
    let detectedMode :=
      first_mode (findModeInLayer (document ctx)) (selection ctx) in
    switchMode ctx (toggleTarget detectedMode).

(* ================================================================== *)
(** ** Vocabulary of the statements *)

(** A string without the separator character. *)
Definition slash_free (s : string) : bool := negb (includes NAMING_SEPARATOR s).

Definition answers (a : LayerAttrs) (c : HostCall) : bool :=
  match faults a c with
  | None => true
  | Some _ => false
  end.

(** A property of the attributes holds at every layer of a tree. *)
Fixpoint everywhere (p : LayerAttrs -> bool) (l : Layer) : bool :=
  match l with
  | Node a None => p a
  | Node a (Some children) => p a && forallb (everywhere p) children
  end.

(** [layer.name()] answers at every layer of the tree. *)
Definition names_answer : Layer -> bool := everywhere (fun a => answers a CName).

(** The layer passes the test [isSymbolInstance] (its calls answering). *)
Definition symbol_instance (a : LayerAttrs) : bool :=
  String.eqb (class_name a) "MSSymbolInstance"
  || includes "MSSymbolInstance" (class_name a)
  || match symbolMaster a with Some _ => true | None => false end.

(** A symbol instance whose only convention-bearing attribute is a symbol
    master with a name of two segments or more. *)
Definition plain_symbol (a : LayerAttrs) : bool :=
  negb (symbol_instance a)
  || (match sharedStyle a with None => true | Some _ => false end
      && match symbolMaster a with
         | None => true
         | Some sm =>
             Nat.leb 2 (List.length (split NAMING_SEPARATOR (symbol_name sm)))
         end).

(** The layers a loop leaves behind and the sum of the results it adds up
    when no layer throws. *)
Definition tally_of (c : Completion Result) : Result :=
  match c with
  | Normal r => r
  | Throw _ => zero
  end.

Definition walked (process : Layer -> Layer * Completion Result)
  (ls : list Layer) : list Layer :=
  map (fun l => fst (process l)) ls.

Definition total (process : Layer -> Layer * Completion Result)
  (ls : list Layer) : Result :=
  fold_right (fun l acc => result_add (tally_of (snd (process l))) acc) zero ls.

(** A name of the legacy convention [component / mode / variant]: a
    component without separator, then space, slash, space. *)
Definition legacy_named (n : string) : Prop :=
  exists component rest : string,
    slash_free component = true /\ n = (component ++ " / " ++ rest)%string.

(** What the switch paths leave untouched on a layer. *)
Definition same_host (a a' : LayerAttrs) : Prop :=
  layer_name a' = layer_name a /\ class_name a' = class_name a /\
  faults a' = faults a.

(** The outcome of a switch path on the layer [a]: one count, and the stated
    attributes untouched. *)
Definition style_outcome (a : LayerAttrs) (p : LayerAttrs * Result) : Prop :=
  (snd p = one_switched \/ snd p = one_skipped) /\ same_host a (fst p) /\
  symbolMaster (fst p) = symbolMaster a /\ overrides (fst p) = overrides a.

Definition symbol_outcome (a : LayerAttrs) (p : LayerAttrs * Result) : Prop :=
  (snd p = zero \/ snd p = one_switched \/ snd p = one_skipped) /\
  same_host a (fst p) /\
  sharedStyle (fst p) = sharedStyle a /\ style (fst p) = style a /\
  (symbolMaster a = None -> symbolMaster (fst p) = None) /\
  (symbolMaster a <> None -> symbolMaster (fst p) <> None).

(** The processing of a layer returns. *)
Definition returns (process : Layer -> Layer * Completion Result) (l : Layer)
  : Prop :=
  exists l' r, process l = (l', Normal r).

(** Two passes over a layer: both return, the second one changes nothing,
    switches nothing and counts as skipped what the first one counted. *)
Definition two_passes (process : Layer -> Layer * Completion Result)
  (l : Layer) : Prop :=
  exists (l1 : Layer) (r1 r2 : Result),
    process l = (l1, Normal r1) /\ process l1 = (l1, Normal r2) /\
    switched r2 = 0 /\ skipped r2 = switched r1 + skipped r1.

(* ================================================================== *)
(** ** Documents and selections of the examples *)

Definition no_faults : HostCall -> option string := fun _ => None.

Definition button_light : SymbolMaster := mkSymbolMaster "S1" "button/light/primary".
Definition button_dark : SymbolMaster := mkSymbolMaster "S2" "button/dark/primary".
Definition text_light : SharedStyle := mkSharedStyle "T1" "text/light/body" "black".
Definition text_dark : SharedStyle := mkSharedStyle "T2" "text/dark/body" "white".
Definition bg_light : SharedStyle := mkSharedStyle "L1" "card/light/bg" "fill white".
Definition bg_dark : SharedStyle := mkSharedStyle "L2" "card/dark/bg" "fill black".

Definition logo : SymbolMaster := mkSymbolMaster "S3" "Logo".

Definition library : Document :=
  mkDocument [text_light; text_dark] [bg_light; bg_dark]
    [button_light; button_dark; logo].

(** An instance of [button/light/primary] with no shared style. *)
Definition light_button : LayerAttrs :=
  mkLayerAttrs "Button" "MSSymbolInstance" None "" (Some button_light)
    (Some "label=OK") no_faults.

Definition dark_button : LayerAttrs :=
  mkLayerAttrs "Button" "MSSymbolInstance" None "" (Some button_dark)
    (Some "label=OK") no_faults.

(** An instance of [button/light/primary] that carries the layer style
    [card/light/bg]. *)
Definition styled_button : LayerAttrs :=
  mkLayerAttrs "Button" "MSSymbolInstance" (Some bg_light) "fill white"
    (Some button_light) None no_faults.

Definition light_text : LayerAttrs :=
  mkLayerAttrs "Title" "MSTextLayer" (Some text_light) "black" None None
    no_faults.

Definition dark_text : LayerAttrs :=
  mkLayerAttrs "Title" "MSTextLayer" (Some text_dark) "white" None None
    no_faults.

Definition light_card : LayerAttrs :=
  mkLayerAttrs "Card" "MSShapeGroup" (Some bg_light) "fill white" None None
    no_faults.

(** A group with no shared style. *)
Definition plain_group : LayerAttrs :=
  mkLayerAttrs "Group" "MSLayerGroup" None "" None None no_faults.

(** A text layer on which [layer.class()] throws. *)
Definition broken_class : LayerAttrs :=
  mkLayerAttrs "Broken" "MSTextLayer" (Some text_light) "black" None None
    (fun c => match c with CClass => Some "class failed" | _ => None end).

(** A shape on which [sketch.fromNative(layer)] throws. *)
Definition broken_wrapper : LayerAttrs :=
  mkLayerAttrs "Odd" "MSShapeGroup" (Some bg_light) "fill white" None None
    (fun c => match c with CFromNative => Some "no wrapper" | _ => None end).

(** A text layer on which [layer.name()] throws. *)
Definition broken_name : LayerAttrs :=
  mkLayerAttrs "" "MSTextLayer" (Some text_light) "black" None None
    (fun c => match c with CName => Some "name failed" | _ => None end).

Definition scenarioA : Context :=
  mkContext [Node light_button None] library [].

Definition empty_selection : Context := mkContext [] library [].

Definition dark_selection : Context :=
  mkContext [Node dark_text None] library [].

(** An instance of the master [Logo], whose name has no separator. *)
Definition logo_instance : LayerAttrs :=
  mkLayerAttrs "Logo" "MSSymbolInstance" None "" (Some logo) None no_faults.

Definition logo_selection : Context :=
  mkContext [Node logo_instance None] library [].

Definition styled_selection : Context :=
  mkContext [Node styled_button None] library [].

Definition faulty_group : Layer :=
  Node plain_group
    (Some [Node broken_class None; Node broken_wrapper None;
           Node light_text None]).

Definition mixed_selection : Context :=
  mkContext
    [Node plain_group
       (Some [Node light_button None; Node light_text None; Node dark_text None]);
     Node light_card None;
     faulty_group]
    library [].

(** A text layer on which the assignment [textLayer.style = ...] throws. *)
Definition broken_style_setter : LayerAttrs :=
  mkLayerAttrs "Title" "MSTextLayer" (Some text_light) "black" None None
    (fun c => match c with CSetStyle => Some "style failed" | _ => None end).

(** A page with a group of three layers, on one of which an assignment
    throws. *)
Definition broken_style_setter_page : list Layer :=
  [Node plain_group
     (Some [Node light_button None; Node broken_style_setter None;
            Node light_card None])].

(** An instance whose own name is written in the spaced convention, with a
    text layer below it, and an instance with a plain name. *)
Definition spaced_button : LayerAttrs :=
  mkLayerAttrs "Button / Light / Primary" "MSSymbolInstance" None ""
    (Some button_light) None no_faults.

Definition spaced_selection : Context :=
  mkContext
    [Node spaced_button (Some [Node light_text None]); Node light_button None]
    library [].

(** The root layers of a page that is in dark mode already. *)
Definition dark_page : list Layer :=
  [Node dark_text None; Node plain_group (Some [Node dark_button None])].

(* ================================================================== *)
(** ** The page entry points *)

(** The context of a page command: the root layers of the current page, the
    document and the messages shown so far. *)
Record PageContext : Type := mkPageContext {
  page_layers : list Layer;
  page_document : Document;
  page_shown : list string
}.

(** The completion message of [switchEntirePage], script.js 580-585. *)
Definition page_report (targetMode : Mode) (r : Result) : string :=
  "Page switched to " ++ modeText targetMode ++ " Mode: "
    ++ show_nat (switched r) ++ " changed, "
    ++ show_nat (skipped r) ++ " skipped".

(** [switchEntirePage(context, targetMode)], script.js 566-590: the walk of
    [switchMode] over the root layers of the page, with no test for an empty
    page. *)
Definition switchEntirePage (ctx : PageContext) (targetMode : Mode)
  : PageContext :=
  match process_all (processLayer (page_document ctx) targetMode)
          (page_layers ctx) zero with
  | (layers', total, Normal _) =>
      mkPageContext layers' (page_document ctx)
        (page_report targetMode total :: page_shown ctx)
  | (layers', _, Throw msg) =>
      mkPageContext layers' (page_document ctx)
        (("Error: " ++ msg)%string :: page_shown ctx)
  end.


(* ================================================================== *)
(** ** The debug script (debug-script.js) *)

(** [const NAMING_SEPARATOR = ' / '] of the debug script. *)
Definition NAMING_SEPARATOR_DEBUG : string := " / ".

(** [detectCurrentModeDebug(layer)], debug-script.js 24-63, on the name the
    layer answers. *)
Definition detectCurrentModeDebug (name : string) : option Mode :=
  let parts := split NAMING_SEPARATOR_DEBUG name in
  if Nat.leb 2 (List.length parts) then
    let modePart := trim (toLowerCase (nth 1 parts EmptyString)) in
    if String.eqb modePart (mode_str LIGHT) then Some LIGHT
    else if String.eqb modePart (mode_str DARK) then Some DARK
    else None
  else None.

(** [buildTargetNameDebug(currentName, targetMode)], debug-script.js
    147-170. *)
Definition buildTargetNameDebug (currentName targetMode : string) : string :=
  let parts := split NAMING_SEPARATOR_DEBUG currentName in
  if Nat.leb 2 (List.length parts) then
    join NAMING_SEPARATOR_DEBUG (array_set 1 targetMode parts)
  else currentName.

(** The body of the loop of [switchModeDebug], debug-script.js 84-131, on one
    selected layer: it reads the layer and says how it counts it, [true] for
    "would change" and [false] for "skipped". *)
Definition countLayerDebug (targetMode : Mode) : Host bool :=
  call CName ;;;
  call CClass ;;;
  name <- read layer_name ;;
  let currentMode := detectCurrentModeDebug name in
  if is_mode currentMode targetMode then ret false
  else
    match currentMode with
    | None => ret false
    | Some _ =>
        cls <- read class_name ;;
        (if String.eqb cls "MSSymbolInstance" then call CSymbolMaster
         else ret tt) ;;;
        ret true
    end.

(** The loop of [switchModeDebug] over the selection, with the two counters. *)
Fixpoint countAllDebug (targetMode : Mode) (ls : list Layer)
  (totalSwitched totalSkipped : nat) : Completion (nat * nat) :=
  match ls with
  | [] => Normal (totalSwitched, totalSkipped)
  | Node a _ :: rest =>
      match countLayerDebug targetMode a with
      | (_, Normal true) =>
          countAllDebug targetMode rest (S totalSwitched) totalSkipped
      | (_, Normal false) =>
          countAllDebug targetMode rest totalSwitched (S totalSkipped)
      | (_, Throw msg) => Throw msg
      end
  end.

(** [switchModeDebug(context, targetMode)], debug-script.js 68-142. *)
Definition switchModeDebug (ctx : Context) (targetMode : Mode) : Context :=
  if Nat.eqb (List.length (selection ctx)) 0 then
    showMessage ctx "Please select layers to switch modes"
  else
    match countAllDebug targetMode (selection ctx) 0 0 with
    | Normal (totalSwitched, totalSkipped) =>
        showMessage ctx
          ("DEBUG - " ++ modeText targetMode ++ " Mode: "
             ++ show_nat totalSwitched ++ " would change, "
             ++ show_nat totalSkipped ++ " skipped")
    | Throw msg => showMessage ctx ("Error: " ++ msg)
    end.

(* ================================================================== *)
(** ** Vocabulary of the further properties *)

(** What a walk must keep of a tree: the names and classes of the layers and
    the way they are nested. *)
#[warnings="-register-all"]
Inductive Shape : Type :=
| ShapeNode (name class : string) (children : option (list Shape)).

Fixpoint shape_of (l : Layer) : Shape :=
  match l with
  | Node a None => ShapeNode (layer_name a) (class_name a) None
  | Node a (Some children) =>
      ShapeNode (layer_name a) (class_name a) (Some (map shape_of children))
  end.

(** The number of layers of a tree. *)
Fixpoint size (l : Layer) : nat :=
  match l with
  | Node _ None => 1
  | Node _ (Some children) => S (list_sum (map size children))
  end.

(** The layers of a tree, the root first. *)
Fixpoint nodes (l : Layer) : list LayerAttrs :=
  match l with
  | Node a None => [a]
  | Node a (Some children) => a :: flat_map nodes children
  end.

(** The two assignments that follow an earlier assignment of the same switch
    answer: [domLayer.style = ...] and [setOverrides(...)]. *)
Definition setters_answer (a : LayerAttrs) : bool :=
  answers a CSetStyle && answers a CSetOverrides.

(** The calls by which a walk reads a layer answer: [name()], [class()] and
    [layers()]. *)
Definition readable (a : LayerAttrs) : bool :=
  answers a CName && answers a CClass && answers a CLayers.

(** What the debug script says of a selected layer, read off the layer's own
    name: it would change when the name shows a mode other than the target. *)
Definition would_change_debug (targetMode : Mode) (l : Layer) : bool :=
  match l with
  | Node a _ =>
      match detectCurrentModeDebug (layer_name a) with
      | Some m => negb (Mode_eqb m targetMode)
      | None => false
      end
  end.

(** The catalog [switchLayerStyle] searches for a layer of that class. *)
Definition catalog_of (doc : Document) (a : LayerAttrs) : list SharedStyle :=
  if String.eqb (class_name a) "MSTextLayer"
  then sharedTextStyles doc else sharedLayerStyles doc.

(** The name of a resource in which the layer [a] can show a mode to
    [findModeInLayer]: its text style, the layer style of the catalog that
    has the object ID of its style, its symbol master. *)
Definition mode_source (doc : Document) (a : LayerAttrs) (name : string)
  : Prop :=
  (exists s, sharedStyle a = Some s /\ class_name a = "MSTextLayer"%string
             /\ name = style_name s)
  \/ (exists s currentStyle,
        sharedStyle a = Some s /\
        sharedStyleWithID (sharedLayerStyles doc) (style_id s) = Some currentStyle
        /\ name = style_name currentStyle)
  \/ (exists sm, symbolMaster a = Some sm /\ name = symbol_name sm).

(* ================================================================== *)
(** * Properties of the name codec *)

Section SplitJoin.

Local Open Scope string_scope.
Local Abbreviation sep := NAMING_SEPARATOR.
Local Abbreviation slash := "/"%char.
Local Arguments Ascii.eqb : simpl never.

Lemma string_app_assoc (a b c : string) : (a ++ b) ++ c = a ++ (b ++ c).
Proof. induction a as [|x a IH]; simpl; [reflexivity | now rewrite IH]. Qed.

Lemma string_app_length (a b : string) :
  String.length (a ++ b) = String.length a + String.length b.
Proof. induction a as [|x a IH]; simpl; [reflexivity | now rewrite IH]. Qed.

(** The scan with the one-character separator reads one character at a
    time. *)
Lemma split_cons (c : ascii) (s : string) :
  split sep (String c s) =
  if Ascii.eqb slash c then "" :: split sep s else push_head c (split sep s).
Proof.
  unfold split, NAMING_SEPARATOR.
  cbn [split_scan startsWith String.length Nat.sub].
  rewrite Bool.andb_true_r.
  destruct (Ascii.eqb slash c); reflexivity.
Qed.

Lemma split_not_nil (s : string) : split sep s <> [].
Proof.
  destruct s as [|c s]; [discriminate|].
  rewrite split_cons. destruct (Ascii.eqb slash c); [discriminate|].
  destruct (split sep s); discriminate.
Qed.

Lemma includes_sep_cons (c : ascii) (s : string) :
  includes sep (String c s) = Ascii.eqb slash c || includes sep s.
Proof.
  unfold NAMING_SEPARATOR. cbn [includes startsWith].
  now rewrite Bool.andb_true_r.
Qed.

Lemma slash_free_cons (c : ascii) (s : string) :
  slash_free (String c s) = negb (Ascii.eqb slash c) && slash_free s.
Proof.
  unfold slash_free. rewrite includes_sep_cons. apply Bool.negb_orb.
Qed.

Lemma slash_free_app (a b : string) :
  slash_free (a ++ b) = slash_free a && slash_free b.
Proof.
  induction a as [|c a IH]; simpl.
  - reflexivity.
  - rewrite !slash_free_cons, IH. now rewrite Bool.andb_assoc.
Qed.

Lemma join_cons2 (p q : string) (ps : list string) :
  join sep (p :: q :: ps) = p ++ String slash (join sep (q :: ps)).
Proof. reflexivity. Qed.

Lemma join_push_head (c : ascii) (p : string) (ps : list string) :
  join sep (String c p :: ps) = String c (join sep (p :: ps)).
Proof. destruct ps; reflexivity. Qed.

(** Splitting and joining with the same separator gives the name back. *)
Lemma join_split (s : string) : join sep (split sep s) = s.
Proof.
  induction s as [|c s IH]; [reflexivity|].
  rewrite split_cons.
  destruct (split sep s) as [|p ps] eqn:E; [now apply split_not_nil in E|].
  destruct (Ascii.eqb_spec slash c) as [<-|Hc].
  - rewrite join_cons2. cbn [append]. now rewrite IH.
  - cbn [push_head]. rewrite join_push_head. now rewrite IH.
Qed.

(** No segment of a split contains the separator. *)
Lemma split_segments_slash_free (s : string) :
  forallb slash_free (split sep s) = true.
Proof.
  induction s as [|c s IH]; [reflexivity|].
  rewrite split_cons.
  destruct (Ascii.eqb slash c) eqn:Hc; [exact IH|].
  destruct (split sep s) as [|p ps]; simpl in *.
  - now rewrite slash_free_cons, Hc.
  - rewrite slash_free_cons, Hc. exact IH.
Qed.

(** A separator after a segment without separator ends that segment. *)
Lemma split_app_sep (a b : string) :
  slash_free a = true ->
  split sep (a ++ String slash b) = a :: split sep b.
Proof.
  induction a as [|c a IH]; cbn [append]; intros Ha.
  - rewrite split_cons. now rewrite Ascii.eqb_refl.
  - rewrite slash_free_cons in Ha. apply Bool.andb_true_iff in Ha as [Hc Ha].
    rewrite split_cons. apply Bool.negb_true_iff in Hc. rewrite Hc.
    now rewrite IH.
Qed.

Lemma split_slash_free (a : string) :
  slash_free a = true -> split sep a = [a].
Proof.
  induction a as [|c a IH]; intros Ha; [reflexivity|].
  rewrite slash_free_cons in Ha. apply Bool.andb_true_iff in Ha as [Hc Ha].
  rewrite split_cons. apply Bool.negb_true_iff in Hc. rewrite Hc.
  now rewrite IH.
Qed.

(** Joining segments without separator and splitting again gives the
    segments back. *)
Lemma split_join (p : string) (ps : list string) :
  forallb slash_free (p :: ps) = true ->
  split sep (join sep (p :: ps)) = p :: ps.
Proof.
  revert p. induction ps as [|q ps IH]; intros p H; simpl in H.
  - apply Bool.andb_true_iff in H as [Hp _]. now apply split_slash_free.
  - apply Bool.andb_true_iff in H as [Hp H].
    rewrite join_cons2, split_app_sep by exact Hp. f_equal. now apply IH.
Qed.

Lemma mode_str_slash_free (m : Mode) : slash_free (mode_str m) = true.
Proof. destruct m; reflexivity. Qed.

Lemma mode_str_normal (m : Mode) : trim (toLowerCase (mode_str m)) = mode_str m.
Proof. destruct m; reflexivity. Qed.

Lemma Mode_eqb_refl (m : Mode) : Mode_eqb m m = true.
Proof. now destruct m. Qed.

(** What [detectCurrentMode] answers, from the segments of the name. *)
Lemma detectCurrentMode_segments (name : string) (m : Mode) :
  detectCurrentMode name = Some m <->
  2 <= List.length (split sep name) /\
  trim (toLowerCase (nth 1 (split sep name) "")) = mode_str m.
Proof.
  unfold detectCurrentMode. cbv zeta.
  destruct (Nat.leb_spec 2 (List.length (split sep name))) as [Hl|Hl].
  - set (modePart := trim (toLowerCase (nth 1 (split sep name) ""))).
    split.
    + destruct (String.eqb_spec modePart (mode_str LIGHT)) as [E|E].
      { intros [= <-]. now split. }
      destruct (String.eqb_spec modePart (mode_str DARK)) as [E'|E'].
      { intros [= <-]. now split. }
      discriminate.
    + intros [_ E]. rewrite E.
      destruct m; reflexivity.
  - split; [discriminate|]. intros [H _]. lia.
Qed.

(** [buildTargetName] on a name of two segments or more. *)
Lemma buildTargetName_segments (name t p0 p1 : string) (rest : list string) :
  split sep name = p0 :: p1 :: rest ->
  buildTargetName name t = join sep (p0 :: t :: rest).
Proof.
  intros E. unfold buildTargetName. cbv zeta. rewrite E. reflexivity.
Qed.

Lemma buildTargetName_short (name t : string) :
  List.length (split sep name) < 2 -> buildTargetName name t = name.
Proof.
  intros H. unfold buildTargetName. cbv zeta.
  destruct (Nat.leb_spec 2 (List.length (split sep name))); [lia|reflexivity].
Qed.

(** The name built for a target mode is detected as that mode. *)
Lemma detect_built (name : string) (t : Mode) :
  2 <= List.length (split sep name) ->
  detectCurrentMode (buildTargetName name (mode_str t)) = Some t.
Proof.
  intros Hl.
  destruct (split sep name) as [|p0 [|p1 rest]] eqn:E; simpl in Hl; try lia.
  rewrite (buildTargetName_segments _ _ _ _ _ E).
  pose proof (split_segments_slash_free name) as Hs. rewrite E in Hs.
  simpl in Hs. apply Bool.andb_true_iff in Hs as [H0 Hs].
  apply Bool.andb_true_iff in Hs as [_ Hr].
  apply detectCurrentMode_segments.
  rewrite split_join.
  - simpl. split; [lia | apply mode_str_normal].
  - simpl. now rewrite H0, mode_str_slash_free, Hr.
Qed.

End SplitJoin.

Section LegacyNames.

Local Open Scope string_scope.
Local Abbreviation sep := NAMING_SEPARATOR.
Local Abbreviation slash := "/"%char.
Local Abbreviation space := " "%char.
Local Arguments Ascii.eqb : simpl never.

Lemma legacy_shape (c r : string) :
  c ++ " / " ++ r = (c ++ " ") ++ String slash (String space r).
Proof. rewrite string_app_assoc. reflexivity. Qed.

(** The segments of [component / rest]: the component keeps its trailing
    space, the next segment starts with a space. *)
Lemma split_legacy (c r : string) :
  slash_free c = true ->
  split sep (c ++ " / " ++ r) = (c ++ " ") :: push_head space (split sep r).
Proof.
  intros Hc. rewrite legacy_shape, split_app_sep.
  - now rewrite split_cons.
  - rewrite slash_free_app, Hc. reflexivity.
Qed.

Lemma map_chars_app (f : ascii -> ascii) (a b : string) :
  map_chars f (a ++ b) = map_chars f a ++ map_chars f b.
Proof. induction a as [|x a IH]; simpl; [reflexivity | now rewrite IH]. Qed.

Lemma trimEnd_app_space (s : string) : trimEnd (s ++ " ") = trimEnd s.
Proof.
  induction s as [|c s IH]; [reflexivity|].
  cbn [append trimEnd]. now rewrite IH.
Qed.

Lemma trim_app_space (s : string) : trim (s ++ " ") = trim s.
Proof.
  unfold trim. induction s as [|c s IH]; [reflexivity|].
  cbn [append trimStart]. destruct (is_space c); [exact IH|].
  apply (trimEnd_app_space (String c s)).
Qed.

(** Trimming removes the spaces the legacy convention puts around the
    mode. *)
Lemma trim_lower_padded (m : string) :
  trim (toLowerCase (String space (m ++ " "))) = trim (toLowerCase m).
Proof.
  unfold toLowerCase. cbn [map_chars]. rewrite map_chars_app.
  change (map_chars lower_char " ") with " ".
  change (lower_char space) with space.
  unfold trim at 1. cbn [trimStart].
  change (is_space space) with true. cbv iota.
  apply trim_app_space.
Qed.

Lemma split_legacy_name (c m v : string) :
  slash_free c = true -> slash_free m = true ->
  split sep (c ++ " / " ++ m ++ " / " ++ v) =
  (c ++ " ") :: String space (m ++ " ") :: push_head space (split sep v).
Proof.
  intros Hc Hm. rewrite split_legacy by exact Hc.
  rewrite split_legacy by exact Hm. reflexivity.
Qed.

Lemma build_legacy (c m v t : string) :
  slash_free c = true -> slash_free m = true ->
  buildTargetName (c ++ " / " ++ m ++ " / " ++ v) t = c ++ " /" ++ t ++ "/ " ++ v.
Proof.
  intros Hc Hm.
  rewrite (buildTargetName_segments _ _ _ _ _ (split_legacy_name c m v Hc Hm)).
  destruct (split sep v) as [|p ps] eqn:E; [now apply split_not_nil in E|].
  cbn [push_head]. rewrite !join_cons2, join_push_head, <- E, join_split.
  rewrite string_app_assoc. reflexivity.
Qed.

(** A name built for a mode never has the legacy shape. *)
Lemma build_legacy_not_legacy (c m v : string) (tm : Mode) (c' r' : string) :
  slash_free c = true -> slash_free m = true -> slash_free c' = true ->
  buildTargetName (c ++ " / " ++ m ++ " / " ++ v) (mode_str tm) <> c' ++ " / " ++ r'.
Proof.
  intros Hc Hm Hc' E.
  apply (f_equal (split sep)) in E.
  rewrite (buildTargetName_segments _ _ _ _ _ (split_legacy_name c m v Hc Hm)) in E.
  rewrite split_join in E.
  - rewrite split_legacy in E by exact Hc'.
    destruct (split sep r') as [|p ps]; cbn [push_head] in E;
      destruct tm; discriminate E.
  - pose proof (split_segments_slash_free v) as Hv.
    cbn [forallb]. rewrite slash_free_app, Hc, mode_str_slash_free.
    destruct (split sep v) as [|p ps]; cbn [push_head forallb] in *.
    + reflexivity.
    + rewrite (slash_free_cons space p).
      apply Bool.andb_true_iff in Hv as [-> ->]. reflexivity.
Qed.

End LegacyNames.

(* ================================================================== *)
(** * The name codec: decode and encode *)

Section NameCodecClaims.

Local Open Scope string_scope.
Local Abbreviation sep := NAMING_SEPARATOR.

(** C8.  [detectCurrentMode] splits the name on the separator (the segments
    contain no separator and rejoin to the name) and yields a mode exactly
    when there are two segments or more and the second one, lower-cased and
    trimmed, is ["light"] or ["dark"]; it yields nothing otherwise and never
    fails.  The legacy name ["card / LIGHT / default"] decodes to light, the
    name ["card-light-default"] to nothing. *)
Theorem detectCurrentMode_decodes :
  (forall name : string,
      join sep (split sep name) = name /\
      forallb slash_free (split sep name) = true)
  /\ (forall (name : string) (m : Mode),
      detectCurrentMode name = Some m <->
      2 <= List.length (split sep name) /\
      trim (toLowerCase (nth 1 (split sep name) "")) = mode_str m)
  /\ (forall name : string,
        detectCurrentMode name = None <->
        List.length (split sep name) < 2 \/
        (trim (toLowerCase (nth 1 (split sep name) "")) <> "light" /\
         trim (toLowerCase (nth 1 (split sep name) "")) <> "dark"))
  /\ detectCurrentMode "card / LIGHT / default" = Some LIGHT
  /\ detectCurrentMode "card-light-default" = None.
Proof.
  split.
  { intros name. split; [apply join_split | apply split_segments_slash_free]. }
  split; [exact detectCurrentMode_segments|].
  split; [|split; reflexivity].
  intros name. unfold detectCurrentMode. cbv zeta.
  destruct (Nat.leb_spec 2 (List.length (split sep name))) as [Hl|Hl].
  - set (modePart := trim (toLowerCase (nth 1 (split sep name) ""))).
    change (mode_str LIGHT) with "light". change (mode_str DARK) with "dark".
    destruct (String.eqb_spec modePart "light") as [E|E].
    { split; [discriminate|]. intros [H|[H _]]; [lia|contradiction]. }
    destruct (String.eqb_spec modePart "dark") as [E'|E'].
    { split; [discriminate|]. intros [H|[_ H]]; [lia|contradiction]. }
    split; [intros _; right; now split | reflexivity].
  - split; [intros _; now left | reflexivity].
Qed.

(** C9.  [buildTargetName] splits the name; with two segments or more it
    puts the target mode, as given, in place of the second segment and
    joins with the same separator, so that the segments of the result are
    the old ones with the second replaced; with fewer segments the name
    comes back unchanged. *)
Theorem buildTargetName_encodes (name t : string) :
  buildTargetName name t =
    match split sep name with
    | p0 :: _ :: rest => join sep (p0 :: t :: rest)
    | _ => name
    end
  /\ (2 <= List.length (split sep name) -> slash_free t = true ->
      split sep (buildTargetName name t) = array_set 1 t (split sep name))
  /\ (List.length (split sep name) < 2 -> buildTargetName name t = name)
  /\ buildTargetName "button/light/primary" "dark" = "button/dark/primary"
  /\ buildTargetName "no-slash-name" "dark" = "no-slash-name".
Proof.
  split; [|split; [|split; [exact (buildTargetName_short name t)|split; reflexivity]]].
  - unfold buildTargetName. cbv zeta.
    destruct (split sep name) as [|p0 [|p1 rest]]; reflexivity.
  - intros Hl Ht.
    pose proof (split_segments_slash_free name) as Hs.
    destruct (split sep name) as [|p0 [|p1 rest]] eqn:E; simpl in Hl; try lia.
    rewrite (buildTargetName_segments _ _ _ _ _ E).
    cbn [array_set]. apply split_join.
    cbn [forallb] in *. apply Bool.andb_true_iff in Hs as [H0 Hs].
    apply Bool.andb_true_iff in Hs as [_ Hr]. now rewrite H0, Ht, Hr.
Qed.

Lemma buildTargetName_encodes_witness :
  split sep (buildTargetName "icon/Light/arrow/left" "DARK") =
  ["icon"; "DARK"; "arrow"; "left"].
Proof.
  apply (proj1 (proj2 (buildTargetName_encodes "icon/Light/arrow/left" "DARK")));
    [simpl; lia | reflexivity].
Defined.

Lemma find_nowhere {A : Type} (f : A -> bool) (l : list A) :
  (forall x, In x l -> f x = false) -> find f l = None.
Proof.
  induction l as [|x l IH]; intros H; [reflexivity|].
  simpl. rewrite (H x (or_introl eq_refl)). apply IH.
  intros y Hy. apply H. now right.
Qed.

(** C10.  On a legacy name [component / mode / variant], whose mode the
    decoder still detects thanks to trimming, [buildTargetName] with the
    separator ["/"] drops the spaces around the second segment: the result
    is [component /t/ variant], which differs from the legacy sibling
    [component / t / variant], and for a target mode it has the name of no
    catalog entry of the legacy convention. *)
Theorem legacy_target_never_matches (c m v t : string) :
  slash_free c = true -> slash_free m = true ->
  (forall cur : Mode, trim (toLowerCase m) = mode_str cur ->
     detectCurrentMode (c ++ " / " ++ m ++ " / " ++ v) = Some cur)
  /\ buildTargetName (c ++ " / " ++ m ++ " / " ++ v) t = c ++ " /" ++ t ++ "/ " ++ v
  /\ buildTargetName (c ++ " / " ++ m ++ " / " ++ v) t <> c ++ " / " ++ t ++ " / " ++ v
  /\ (forall (tm : Mode) (doc : Document),
        Forall legacy_named (map symbol_name (allSymbols doc)) ->
        findSymbolByName doc
          (buildTargetName (c ++ " / " ++ m ++ " / " ++ v) (mode_str tm)) = None)
  /\ (forall (tm : Mode) (catalog : list SharedStyle),
        Forall legacy_named (map style_name catalog) ->
        findStyle catalog
          (buildTargetName (c ++ " / " ++ m ++ " / " ++ v) (mode_str tm)) = None).
Proof.
  intros Hc Hm. repeat split.
  - intros cur Hcur. apply detectCurrentMode_segments.
    rewrite (split_legacy_name c m v Hc Hm). cbn [nth List.length].
    split; [lia|]. now rewrite trim_lower_padded.
  - now apply build_legacy.
  - rewrite build_legacy by assumption. intros E.
    apply (f_equal String.length) in E.
    rewrite !string_app_length in E. simpl in E. lia.
  - intros tm doc Hall. apply find_nowhere. intros sy Hin.
    apply String.eqb_neq. intros E.
    rewrite Forall_forall in Hall.
    destruct (Hall (symbol_name sy) (in_map _ _ _ Hin)) as (c' & r' & Hc' & Hn).
    rewrite Hn in E. symmetry in E.
    now apply build_legacy_not_legacy in E.
  - intros tm catalog Hall. apply find_nowhere. intros st Hin.
    apply String.eqb_neq. intros E.
    rewrite Forall_forall in Hall.
    destruct (Hall (style_name st) (in_map _ _ _ Hin)) as (c' & r' & Hc' & Hn).
    rewrite Hn in E. symmetry in E.
    now apply build_legacy_not_legacy in E.
Qed.

Lemma legacy_target_never_matches_witness :
  buildTargetName "button / light / primary" "dark" = "button /dark/ primary".
Proof.
  apply (proj1 (proj2
           (legacy_target_never_matches "button" "light" "primary" "dark"
              eq_refl eq_refl))).
Defined.

End NameCodecClaims.

(* ================================================================== *)
(** * Properties of the switch engine *)

Section HostSteps.

Context {A B : Type}.

Lemma call_throws (c : HostCall) (k : unit -> Host B) (a : LayerAttrs)
  (msg : string) :
  faults a c = Some msg -> bind (call c) k a = (a, Throw msg).
Proof. intros E. unfold bind, call. now rewrite E. Qed.

Lemma call_answers (c : HostCall) (k : unit -> Host B) (a : LayerAttrs) :
  faults a c = None -> bind (call c) k a = k tt a.
Proof. intros E. unfold bind, call. now rewrite E. Qed.

Lemma read_bind (f : LayerAttrs -> A) (k : A -> Host B) (a : LayerAttrs) :
  bind (read f) k a = k (f a) a.
Proof. reflexivity. Qed.

Lemma ret_bind (x : A) (k : A -> Host B) (a : LayerAttrs) :
  bind (ret x) k a = k x a.
Proof. reflexivity. Qed.

Lemma set_sharedStyle_bind (s : SharedStyle) (k : unit -> Host B) (a : LayerAttrs) :
  bind (set_sharedStyle s) k a = k tt (fst (set_sharedStyle s a)).
Proof. reflexivity. Qed.

Lemma set_style_bind (p : string) (k : unit -> Host B) (a : LayerAttrs) :
  bind (set_style p) k a = k tt (fst (set_style p a)).
Proof. reflexivity. Qed.

Lemma set_symbolMaster_bind (m : SymbolMaster) (k : unit -> Host B) (a : LayerAttrs) :
  bind (set_symbolMaster m) k a = k tt (fst (set_symbolMaster m a)).
Proof. reflexivity. Qed.

Lemma set_overrides_bind (o : string) (k : unit -> Host B) (a : LayerAttrs) :
  bind (set_overrides o) k a = k tt (fst (set_overrides o a)).
Proof. reflexivity. Qed.

Lemma call_throw_eq (c : HostCall) (a : LayerAttrs) (msg : string) :
  faults a c = Some msg -> call c a = (a, Throw msg).
Proof. intros E. unfold call. now rewrite E. Qed.

Lemma call_answer_eq (c : HostCall) (a : LayerAttrs) :
  faults a c = None -> call c a = (a, Normal tt).
Proof. intros E. unfold call. now rewrite E. Qed.

Lemma bind_bind {C : Type} (m : Host A) (f : A -> Host B) (g : B -> Host C)
  (a : LayerAttrs) :
  bind (bind m f) g a = bind m (fun x => bind (f x) g) a.
Proof. unfold bind. destruct (m a) as [a' [x|msg]]; reflexivity. Qed.

End HostSteps.

(** One step of a host computation applied to a layer: a call that throws
    or answers, a read, an assignment. *)
Ltac host_call :=
  match goal with
  | |- context [bind (call ?c) ?k ?a] =>
      first
        [ rewrite (call_answers c k a) by (cbn; solve [auto])
        | let f := eval cbn in (faults a c) in
          lazymatch goal with
          | E : f = Some ?msg |- _ => rewrite (call_throws c k a msg E)
          | _ =>
              let E := fresh "E" in
              destruct f eqn:E;
              [ rewrite (call_throws c k a _ E) | rewrite (call_answers c k a E) ]
          end ]
  end.

Ltac host_step :=
  first [ rewrite bind_bind | rewrite read_bind | rewrite ret_bind
        | rewrite set_sharedStyle_bind | rewrite set_style_bind
        | rewrite set_symbolMaster_bind | rewrite set_overrides_bind
        | host_call ];
  cbv beta.

Ltac break_goal :=
  match goal with
  | |- context [match ?x with _ => _ end] => destruct x eqn:?
  | |- context [if ?x then _ else _] => destruct x eqn:?
  end.

Section EngineFacts.

Variable doc : Document.
Variable t : Mode.

Local Arguments detectCurrentMode : simpl never.
Local Arguments buildTargetName : simpl never.
Local Arguments findStyle : simpl never.
Local Arguments findSymbolByName : simpl never.
Local Arguments String.eqb : simpl never.
Local Arguments includes : simpl never.

Lemma same_host_refl (a : LayerAttrs) : same_host a a.
Proof. now repeat split. Qed.

Lemma same_host_trans (a b c : LayerAttrs) :
  same_host a b -> same_host b c -> same_host a c.
Proof.
  intros (H1 & H2 & H3) (K1 & K2 & K3). repeat split; congruence.
Qed.

Lemma switchAppliedStyle_outcome (catalog : list SharedStyle) (a : LayerAttrs) :
  style_outcome a (caught (switchAppliedStyle t catalog a)).
Proof.
  unfold switchAppliedStyle, style_outcome, same_host.
  host_step.
  repeat break_goal; repeat host_step; cbn; auto 10.
Qed.

Lemma switchLayerStyle_outcome (a : LayerAttrs) :
  style_outcome a (switchLayerStyle doc t a).
Proof.
  unfold switchLayerStyle, switchLayerStyle_body.
  repeat host_step;
    try (cbn; unfold style_outcome, same_host; cbn; now auto 10).
  destruct (String.eqb (class_name a) "MSTextLayer");
    apply switchAppliedStyle_outcome.
Qed.

Lemma switchSymbolMode_outcome (a : LayerAttrs) :
  symbol_outcome a (switchSymbolMode doc t a).
Proof.
  unfold switchSymbolMode, switchSymbolMode_body, symbol_outcome, same_host.
  repeat host_step; repeat (break_goal; repeat host_step); cbn;
    repeat split; auto; congruence.
Qed.

Lemma result_add_zero_l (r : Result) : result_add zero r = r.
Proof. now destruct r. Qed.

Lemma result_add_zero_r (r : Result) : result_add r zero = r.
Proof. destruct r. unfold result_add. simpl. now rewrite !Nat.add_0_r. Qed.

Lemma result_add_assoc (r1 r2 r3 : Result) :
  result_add (result_add r1 r2) r3 = result_add r1 (result_add r2 r3).
Proof. unfold result_add. simpl. now rewrite !Nat.add_assoc. Qed.

(** The test [isSymbolInstance] leaves the layer as it is; when its calls
    answer it returns [symbol_instance]. *)
Lemma isSymbolInstance_state (a : LayerAttrs) : fst (isSymbolInstance a) = a.
Proof.
  unfold isSymbolInstance.
  repeat host_step; repeat (break_goal; repeat host_step); reflexivity.
Qed.

Lemma isSymbolInstance_answers (a : LayerAttrs) :
  faults a CClass = None ->
  (symbolMaster a <> None -> faults a CSymbolMaster = None) ->
  isSymbolInstance a = (a, Normal (symbol_instance a)).
Proof.
  intros Hc Hm. unfold isSymbolInstance, symbol_instance.
  repeat host_step.
  destruct (String.eqb (class_name a) "MSSymbolInstance"); [reflexivity|].
  destruct (includes "MSSymbolInstance" (class_name a)); [reflexivity|].
  host_step.
  destruct (symbolMaster a) as [sm|] eqn:Em; [|reflexivity].
  rewrite call_answers by (apply Hm; discriminate). reflexivity.
Qed.

(** When [layer.name()] throws, the [catch] block of [processCurrentLayer]
    throws again: the error leaves the function. *)
Lemma processCurrentLayer_escapes (a : LayerAttrs) (msg : string) :
  faults a CName = Some msg ->
  processCurrentLayer doc t a = (a, Throw msg).
Proof.
  intros E. unfold processCurrentLayer, log_error_with_name.
  repeat host_step. reflexivity.
Qed.

(** When [layer.name()] answers, [processCurrentLayer] returns a result:
    at most one switch, at most two skips. *)
Lemma processCurrentLayer_returns (a : LayerAttrs) :
  faults a CName = None ->
  exists (a' : LayerAttrs) (r : Result),
    processCurrentLayer doc t a = (a', Normal r) /\ same_host a a' /\
    switched r <= 1 /\ skipped r <= 2.
Proof.
  intros En. unfold processCurrentLayer, log_error_with_name.
  host_step. destruct (faults a CClass) as [msg|] eqn:Ec.
  { rewrite (call_throw_eq _ _ _ Ec). host_step.
    exists a, zero. repeat split; simpl; lia. }
  rewrite (call_answer_eq _ _ Ec).
  pose proof (switchLayerStyle_outcome a) as Hs.
  destruct (switchLayerStyle doc t a) as [a1 rs].
  destruct Hs as (Hrs & Hh & Hsm & _). simpl in Hrs, Hh, Hsm.
  rewrite result_add_zero_l.
  destruct Hrs as [-> | ->]; simpl.
  { exists a1, one_switched. repeat split; auto; try apply Hh; simpl; lia. }
  pose proof (isSymbolInstance_state a1) as Hi.
  destruct (isSymbolInstance a1) as [a2 [[|]|msg]]; simpl in Hi; subst a2.
  - pose proof (switchSymbolMode_outcome a1) as Hy.
    destruct (switchSymbolMode doc t a1) as [a3 ry].
    destruct Hy as (Hry & Hh' & _). simpl in Hry, Hh'.
    exists a3, (result_add one_skipped ry). split; [reflexivity|].
    split; [exact (same_host_trans _ _ _ Hh Hh')|].
    destruct Hry as [-> | [-> | ->]]; simpl; lia.
  - exists a1, one_skipped. repeat split; auto; try apply Hh; simpl; lia.
  - destruct Hh as (? & ? & Hf). host_call; [congruence|].
    exists a1, one_skipped. repeat split; auto; simpl; lia.
Qed.

(** Induction on a layer tree: the property holds at a layer as soon as it
    holds at each of its children. *)
Lemma Layer_induction (P : Layer -> Prop) :
  (forall a, P (Node a None)) ->
  (forall a children, Forall P children -> P (Node a (Some children))) ->
  forall l, P l.
Proof.
  intros Hleaf Hnode.
  refine (fix IH (l : Layer) : P l :=
            match l with
            | Node a None => Hleaf a
            | Node a (Some children) =>
                Hnode a children
                  ((fix go (cs : list Layer) : Forall P cs :=
                      match cs with
                      | [] => Forall_nil P
                      | c :: cs' => Forall_cons c (IH c) (go cs')
                      end) children)
            end).
Qed.

(** A loop over layers that all return visits every layer and adds up every
    result. *)
Lemma process_all_returns (process : Layer -> Layer * Completion Result)
  (ls : list Layer) (acc : Result) :
  Forall (fun l => exists l' r, process l = (l', Normal r)) ls ->
  process_all process ls acc =
  (walked process ls, result_add acc (total process ls), Normal tt).
Proof.
  intros H. revert acc. induction H as [|l ls (l' & r & E) _ IH]; intros acc.
  - simpl. now rewrite result_add_zero_r.
  - simpl. rewrite E, IH. simpl. now rewrite result_add_assoc.
Qed.

(** A loop stops at the first layer that throws: the layers after it are
    left as they were. *)
Lemma process_all_throws (process : Layer -> Layer * Completion Result)
  (before : list Layer) (l l' : Layer) (after : list Layer) (acc : Result)
  (msg : string) :
  Forall (fun l => exists l' r, process l = (l', Normal r)) before ->
  process l = (l', Throw msg) ->
  process_all process (before ++ l :: after) acc =
  (walked process before ++ l' :: after,
   result_add acc (total process before), Throw msg).
Proof.
  intros H E. revert acc. induction H as [|b bs (b' & r & Eb) _ IH]; intros acc.
  - simpl. rewrite E. now rewrite result_add_zero_r.
  - simpl. rewrite Eb, IH. simpl. now rewrite result_add_assoc.
Qed.

Lemma processLayer_eq (a : LayerAttrs) (ch : option (list Layer)) :
  processLayer doc t (Node a ch) =
  match processCurrentLayer doc t a with
  | (a', Throw _) =>
      let '(a'', c) := log_error_with_name zero a' in (Node a'' ch, c)
  | (a', Normal layerResult) =>
      let result := result_add zero layerResult in
      match ch with
      | None => (Node a' None, Normal result)
      | Some children =>
          match call CLayers a' with
          | (_, Throw _) =>
              let '(a'', c) := log_error_with_name result a' in
              (Node a'' ch, c)
          | (_, Normal _) =>
              match process_all (processLayer doc t) children result with
              | (children', total, Normal _) =>
                  (Node a' (Some children'), Normal total)
              | (children', partial, Throw _) =>
                  let '(a'', c) := log_error_with_name partial a' in
                  (Node a'' (Some children'), c)
              end
          end
      end
  end.
Proof. reflexivity. Qed.

(** When [layer.name()] throws on a layer, the error leaves [processLayer]:
    both [catch] blocks on the way print the name. *)
Lemma processLayer_escapes (a : LayerAttrs) (ch : option (list Layer))
  (msg : string) :
  faults a CName = Some msg ->
  processLayer doc t (Node a ch) = (Node a ch, Throw msg).
Proof.
  intros E. rewrite processLayer_eq, (processCurrentLayer_escapes a msg E).
  unfold log_error_with_name. host_step. reflexivity.
Qed.

Lemma names_answer_node (a : LayerAttrs) (children : list Layer) :
  names_answer (Node a (Some children)) = true ->
  faults a CName = None /\ Forall (fun c => names_answer c = true) children.
Proof.
  unfold names_answer. cbn [everywhere]. intros H.
  apply Bool.andb_true_iff in H as [Ha Hc]. split.
  - unfold answers in Ha. now destruct (faults a CName).
  - apply Forall_forall. now apply forallb_forall.
Qed.

Lemma names_answer_leaf (a : LayerAttrs) :
  names_answer (Node a None) = true -> faults a CName = None.
Proof.
  unfold names_answer, answers. cbn [everywhere].
  now destruct (faults a CName).
Qed.

(** The walk of a container whose [name()] and [layers()] answer and whose
    children all return: the layer itself, then every child in order. *)
Lemma processLayer_container (a : LayerAttrs) (children : list Layer) :
  faults a CName = None -> faults a CLayers = None ->
  Forall (fun c => exists c' r, processLayer doc t c = (c', Normal r)) children ->
  processLayer doc t (Node a (Some children)) =
  (Node (fst (processCurrentLayer doc t a))
        (Some (walked (processLayer doc t) children)),
   Normal (result_add (tally_of (snd (processCurrentLayer doc t a)))
             (total (processLayer doc t) children))).
Proof.
  intros En El Hc. rewrite processLayer_eq.
  destruct (processCurrentLayer_returns a En) as (a' & r & E & (_ & _ & Hf) & _).
  rewrite E. cbv zeta. rewrite result_add_zero_l.
  rewrite call_answer_eq by congruence.
  rewrite (process_all_returns _ _ _ Hc). reflexivity.
Qed.

Lemma processLayer_leaf (a : LayerAttrs) :
  faults a CName = None ->
  processLayer doc t (Node a None) =
  (Node (fst (processCurrentLayer doc t a)) None,
   Normal (tally_of (snd (processCurrentLayer doc t a)))).
Proof.
  intros En. rewrite processLayer_eq.
  destruct (processCurrentLayer_returns a En) as (a' & r & E & _).
  rewrite E. cbv zeta. now rewrite result_add_zero_l.
Qed.

(** A container whose [layers()] throws: its children are not visited. *)
Lemma processLayer_layers_fault (a : LayerAttrs) (children : list Layer)
  (msg : string) :
  faults a CName = None -> faults a CLayers = Some msg ->
  processLayer doc t (Node a (Some children)) =
  (Node (fst (processCurrentLayer doc t a)) (Some children),
   Normal (tally_of (snd (processCurrentLayer doc t a)))).
Proof.
  intros En El. rewrite processLayer_eq.
  destruct (processCurrentLayer_returns a En)
    as (a' & r & E & (_ & _ & Hf) & _).
  rewrite E. cbv zeta. rewrite result_add_zero_l.
  rewrite (call_throw_eq CLayers a' msg) by congruence.
  unfold log_error_with_name. rewrite call_answers by congruence.
  reflexivity.
Qed.

(** [processLayer] returns on every tree in which [layer.name()] answers
    everywhere. *)
Lemma processLayer_returns (l : Layer) :
  names_answer l = true ->
  exists l' r, processLayer doc t l = (l', Normal r).
Proof.
  induction l as [a | a children IH] using Layer_induction; intros H.
  - apply names_answer_leaf in H. rewrite (processLayer_leaf a H). eauto.
  - apply names_answer_node in H as [En Hc].
    assert (Hret : Forall (fun c => exists c' r,
                             processLayer doc t c = (c', Normal r)) children).
    { rewrite Forall_forall in *. intros c Hin. apply (IH c Hin), (Hc c Hin). }
    destruct (faults a CLayers) as [msg|] eqn:El.
    + rewrite (processLayer_layers_fault a children msg En El). eauto.
    + rewrite (processLayer_container a children En El Hret). eauto.
Qed.

(** A layer without shared style is counted as skipped by the style path,
    whatever its host calls do. *)
Lemma switchLayerStyle_no_style (a : LayerAttrs) :
  sharedStyle a = None -> switchLayerStyle doc t a = (a, one_skipped).
Proof.
  intros Hs. unfold switchLayerStyle, switchLayerStyle_body, switchAppliedStyle.
  repeat host_step; try reflexivity.
  destruct (String.eqb (class_name a) "MSTextLayer");
    host_step; rewrite Hs; reflexivity.
Qed.

Lemma symbol_instance_false (a : LayerAttrs) :
  symbol_instance a = false -> symbolMaster a = None.
Proof.
  unfold symbol_instance. intros H.
  apply Bool.orb_false_iff in H as [_ H]. now destruct (symbolMaster a).
Qed.

Lemma processCurrentLayer_no_style (a : LayerAttrs) :
  sharedStyle a = None -> symbol_instance a = false ->
  faults a CName = None -> faults a CClass = None ->
  processCurrentLayer doc t a = (a, Normal one_skipped).
Proof.
  intros Hs Hi En Ec. unfold processCurrentLayer.
  host_step. rewrite (call_answer_eq _ _ Ec).
  rewrite (switchLayerStyle_no_style a Hs). cbn [result_add zero one_skipped
    switched skipped Nat.add Nat.eqb].
  rewrite isSymbolInstance_answers, Hi; [reflexivity | exact Ec |].
  rewrite (symbol_instance_false a Hi). congruence.
Qed.

End EngineFacts.

(* ================================================================== *)
(** * The per-layer switch and the walk *)

(** C1.  Scenario A on the code: for the selection of one instance of
    [button/light/primary], with [button/dark/primary] in the catalog,
    [switchToDark] repoints the instance to the dark master and reports
    ["Switched to Dark Mode: 1 changed, 1 skipped"]: the style path has
    counted the instance, which has no shared style, as skipped before the
    symbol path switched it. *)
Theorem scenarioA_counts_the_instance_twice :
  switchToDark scenarioA =
  mkContext [Node dark_button None] library
    ["Switched to Dark Mode: 1 changed, 1 skipped"%string].
Proof. vm_compute. reflexivity. Qed.

(** C2 as stated fails: a group with no shared style that is no symbol
    instance is counted as skipped, its tally is not [{0,0}]. *)
Lemma plain_group_is_skipped :
  sharedStyle plain_group = None /\ symbol_instance plain_group = false
  /\ processCurrentLayer library DARK plain_group =
     (plain_group, Normal (mkResult 0 1))
  /\ snd (processCurrentLayer library DARK plain_group) <> Normal (mkResult 0 0).
Proof.
  repeat split; try (vm_compute; reflexivity).
  vm_compute. discriminate.
Qed.

(** C2, amended.  A layer with no applied shared style that is no symbol
    instance, and whose [name()] and [class()] answer, contributes
    [{switched: 0, skipped: 1}] and is left as it is; the tally of its
    subtree is that skip plus what its children contribute. *)
Theorem style_less_layer_counts_as_skipped (doc : Document) (t : Mode)
  (a : LayerAttrs) :
  sharedStyle a = None -> symbol_instance a = false ->
  faults a CName = None -> faults a CClass = None ->
  processCurrentLayer doc t a = (a, Normal one_skipped)
  /\ processLayer doc t (Node a None) = (Node a None, Normal one_skipped)
  /\ (forall children : list Layer,
        faults a CLayers = None -> forallb names_answer children = true ->
        processLayer doc t (Node a (Some children)) =
        (Node a (Some (walked (processLayer doc t) children)),
         Normal (result_add one_skipped (total (processLayer doc t) children)))).
Proof.
  intros Hs Hi En Ec.
  pose proof (processCurrentLayer_no_style doc t a Hs Hi En Ec) as E.
  split; [exact E|]. split.
  - rewrite (processLayer_leaf doc t a En), E. reflexivity.
  - intros children El Hc.
    rewrite (processLayer_container doc t a children En El).
    + rewrite E. reflexivity.
    + apply Forall_forall. intros c Hin. apply processLayer_returns.
      rewrite forallb_forall in Hc. now apply Hc.
Qed.

Lemma style_less_layer_counts_as_skipped_witness :
  processLayer library DARK
    (Node plain_group (Some [Node light_text None; Node dark_text None])) =
  (Node plain_group
     (Some (walked (processLayer library DARK)
              [Node light_text None; Node dark_text None])),
   Normal (result_add one_skipped
             (total (processLayer library DARK)
                [Node light_text None; Node dark_text None]))).
Proof.
  apply (proj2 (proj2 (style_less_layer_counts_as_skipped library DARK plain_group
                         eq_refl eq_refl eq_refl eq_refl)));
    reflexivity.
Defined.

(** C3.  On the code the toggle targets dark whatever mode it detects: for a
    selection whose first detected mode is dark, [toggleMode] is
    [switchMode] to dark again, and nothing is switched to light. *)
Theorem toggle_always_targets_dark :
  (forall detected : option Mode, toggleTarget detected = DARK)
  /\ first_mode (findModeInLayer library) (selection dark_selection) = Some DARK
  /\ toggleMode dark_selection = switchMode dark_selection DARK
  /\ toggleMode dark_selection =
     mkContext [Node dark_text None] library
       ["Switched to Dark Mode: 0 changed, 1 skipped"%string].
Proof.
  split; [intros [[|]|]; reflexivity|].
  repeat split; vm_compute; reflexivity.
Qed.

(** C4 as stated fails for the toggle: on an empty selection it reports a
    message of its own. *)
Lemma toggle_empty_selection_message :
  shown (toggleMode empty_selection) = ["Please select layers to toggle"%string]
  /\ shown (toggleMode empty_selection) <>
     ["Please select layers to switch modes"%string].
Proof. split; [reflexivity | discriminate]. Qed.

(** C4, amended.  On an empty selection [switchMode] (to light or to dark)
    and [toggleMode] stop before any traversal and leave the selection and
    the document as they are; [switchMode] reports
    ["Please select layers to switch modes"], [toggleMode] reports
    ["Please select layers to toggle"]. *)
Theorem empty_selection_short_circuits (ctx : Context) (m : Mode) :
  selection ctx = [] ->
  switchMode ctx m =
    mkContext [] (document ctx)
      ("Please select layers to switch modes"%string :: shown ctx)
  /\ toggleMode ctx =
     mkContext [] (document ctx)
       ("Please select layers to toggle"%string :: shown ctx).
Proof.
  intros H. unfold switchMode, toggleMode, showMessage. rewrite H.
  split; reflexivity.
Qed.

Lemma empty_selection_short_circuits_witness :
  switchMode empty_selection DARK =
    mkContext [] library ["Please select layers to switch modes"%string]
  /\ toggleMode empty_selection =
     mkContext [] library ["Please select layers to toggle"%string].
Proof. apply (empty_selection_short_circuits empty_selection DARK eq_refl). Defined.

(** C6.  On the code an instance of [button/dark/primary] with no shared
    style, switched to dark, is counted as skipped twice: once by the style
    path (no shared style), once by the symbol path (already dark). *)
Theorem dark_instance_is_skipped_twice :
  processCurrentLayer library DARK dark_button =
  (dark_button, Normal (mkResult 0 2)).
Proof. vm_compute. reflexivity. Qed.

(** C5 as stated fails: a layer on which [layer.class()] throws is caught by
    [processCurrentLayer] and contributes [{0,0}], it is not counted as
    skipped. *)
Lemma class_fault_is_not_counted :
  faults broken_class CClass = Some "class failed"%string
  /\ processLayer library DARK (Node broken_class None) =
     (Node broken_class None, Normal (mkResult 0 0))
  /\ skipped (tally_of (snd (processLayer library DARK (Node broken_class None))))
     <> 1.
Proof.
  repeat split; try (vm_compute; reflexivity).
  vm_compute. discriminate.
Qed.

(** The [catch] blocks print [layer.name()]: when that call is the one that
    throws, the error leaves the walk, the layers after it are not visited
    and [switchMode] reports the error instead of a tally. *)
Example name_fault_leaves_the_walk :
  switchMode
    (mkContext [Node broken_name None; Node light_text None] library []) DARK =
  mkContext [Node broken_name None; Node light_text None] library
    ["Error: name failed"%string].
Proof. vm_compute. reflexivity. Qed.

(** Inside a container the error is caught by the container's [catch]
    block: the siblings after the throwing layer are not visited, the walk
    goes on after the container. *)
Example name_fault_skips_the_siblings :
  processLayer library DARK
    (Node plain_group (Some [Node broken_name None; Node light_text None])) =
  (Node plain_group (Some [Node broken_name None; Node light_text None]),
   Normal (mkResult 0 1)).
Proof. vm_compute. reflexivity. Qed.

Lemma switchMode_returns (ctx : Context) (t : Mode) :
  selection ctx <> [] ->
  forallb names_answer (selection ctx) = true ->
  switchMode ctx t =
  showMessage
    (with_selection ctx (walked (processLayer (document ctx) t) (selection ctx)))
    (report t (total (processLayer (document ctx) t) (selection ctx))).
Proof.
  intros Hne Hn. unfold switchMode.
  destruct (selection ctx) as [|l ls] eqn:E; [contradiction|].
  cbn [List.length Nat.eqb].
  rewrite process_all_returns.
  - rewrite result_add_zero_l. reflexivity.
  - apply Forall_forall. intros c Hin. apply processLayer_returns.
    rewrite forallb_forall in Hn. now apply Hn.
Qed.

(** C5, amended.  A throw inside the style path or inside the symbol path is
    caught there and recorded as one skip by that path.  A throw of
    [layer.class()] or [layer.layers()] is caught by [processCurrentLayer]
    or [processLayer] and adds nothing to the tally.  As long as
    [layer.name()] answers on every layer, [processLayer] returns a tally on
    every tree, a container whose [layers()] answers visits every child in
    order and adds up every child's tally, whatever faults the children
    have, and [switchMode] reports the tally of the whole selection. *)
Theorem faults_are_contained (doc : Document) (t : Mode) :
  (forall (a : LayerAttrs) (msg : string),
      snd (switchLayerStyle_body doc t a) = Throw msg ->
      switchLayerStyle doc t a = (fst (switchLayerStyle_body doc t a), one_skipped))
  /\ (forall (a : LayerAttrs) (msg : string),
        snd (switchSymbolMode_body doc t a) = Throw msg ->
        switchSymbolMode doc t a = (fst (switchSymbolMode_body doc t a), one_skipped))
  /\ (forall (a : LayerAttrs) (msg : string),
        faults a CName = None -> faults a CClass = Some msg ->
        processCurrentLayer doc t a = (a, Normal zero))
  /\ (forall (a : LayerAttrs) (children : list Layer) (msg : string),
        faults a CName = None -> faults a CLayers = Some msg ->
        processLayer doc t (Node a (Some children)) =
        (Node (fst (processCurrentLayer doc t a)) (Some children),
         Normal (tally_of (snd (processCurrentLayer doc t a)))))
  /\ (forall l : Layer,
        names_answer l = true ->
        exists l' r, processLayer doc t l = (l', Normal r))
  /\ (forall (a : LayerAttrs) (children : list Layer),
        names_answer (Node a (Some children)) = true ->
        faults a CLayers = None ->
        processLayer doc t (Node a (Some children)) =
        (Node (fst (processCurrentLayer doc t a))
           (Some (walked (processLayer doc t) children)),
         Normal (result_add (tally_of (snd (processCurrentLayer doc t a)))
                   (total (processLayer doc t) children))))
  /\ (forall ctx : Context,
        document ctx = doc -> selection ctx <> [] ->
        forallb names_answer (selection ctx) = true ->
        switchMode ctx t =
        showMessage
          (with_selection ctx (walked (processLayer doc t) (selection ctx)))
          (report t (total (processLayer doc t) (selection ctx)))).
Proof.
  repeat apply conj.
  - intros a msg H. unfold switchLayerStyle.
    destruct (switchLayerStyle_body doc t a) as [a' [r|m]]; [discriminate|].
    reflexivity.
  - intros a msg H. unfold switchSymbolMode.
    destruct (switchSymbolMode_body doc t a) as [a' [r|m]]; [discriminate|].
    reflexivity.
  - intros a msg En Ec. unfold processCurrentLayer, log_error_with_name.
    host_step. rewrite (call_throw_eq _ _ _ Ec). host_step. reflexivity.
  - intros a children msg. apply processLayer_layers_fault.
  - intros l. apply processLayer_returns.
  - intros a children Hn El.
    destruct (names_answer_node a children Hn) as [En Hc].
    apply (processLayer_container doc t a children En El).
    apply Forall_forall. intros c Hin. apply processLayer_returns.
    rewrite Forall_forall in Hc. now apply Hc.
  - intros ctx <- Hne Hn. now apply switchMode_returns.
Qed.

Lemma faults_are_contained_witness :
  processLayer library DARK faulty_group =
  (Node (fst (processCurrentLayer library DARK plain_group))
     (Some (walked (processLayer library DARK)
              [Node broken_class None; Node broken_wrapper None;
               Node light_text None])),
   Normal (result_add (tally_of (snd (processCurrentLayer library DARK plain_group)))
             (total (processLayer library DARK)
                [Node broken_class None; Node broken_wrapper None;
                 Node light_text None]))).
Proof.
  apply (proj1 (proj2 (proj2 (proj2 (proj2 (proj2
           (faults_are_contained library DARK)))))));
    reflexivity.
Defined.

(** The walk of [faulty_group]: the two faulty children are passed over, one
    uncounted and one skipped, and the text layer after them is switched. *)
Example faulty_group_walk :
  processLayer library DARK faulty_group =
  (Node plain_group
     (Some [Node broken_class None; Node broken_wrapper None;
            Node dark_text None]),
   Normal (mkResult 1 2)).
Proof. vm_compute. reflexivity. Qed.

(* ================================================================== *)
(** * Two passes in a row *)

Section TwoPasses.

Variable doc : Document.
Variable t : Mode.

Local Arguments detectCurrentMode : simpl never.
Local Arguments buildTargetName : simpl never.
Local Arguments findStyle : simpl never.
Local Arguments findSymbolByName : simpl never.
Local Arguments String.eqb : simpl never.
Local Arguments includes : simpl never.

Lemma findStyle_name (catalog : list SharedStyle) (name : string)
  (st : SharedStyle) :
  findStyle catalog name = Some st -> style_name st = name.
Proof.
  unfold findStyle. intros H. apply find_some in H as [_ H].
  now apply String.eqb_eq.
Qed.

Lemma findSymbolByName_name (name : string) (sy : SymbolMaster) :
  findSymbolByName doc name = Some sy -> symbol_name sy = name.
Proof.
  unfold findSymbolByName. intros H. apply find_some in H as [_ H].
  now apply String.eqb_eq.
Qed.

Lemma detected_has_two_segments (name : string) (m : Mode) :
  detectCurrentMode name = Some m ->
  2 <= List.length (split NAMING_SEPARATOR name).
Proof. intros H. now apply detectCurrentMode_segments in H. Qed.

(** A computation that leaves the layer as it is and switches nothing gives
    the same result when it runs again. *)
Lemma same_again (f : LayerAttrs -> LayerAttrs * Result) (a : LayerAttrs)
  (r : Result) :
  f a = (a, r) -> switched r = 0 ->
  exists (a1 : LayerAttrs) (r1 r2 : Result),
    f a = (a1, r1) /\ f a1 = (a1, r2) /\
    switched r2 = 0 /\ skipped r2 = switched r1 + skipped r1.
Proof. intros E H. exists a, r, r. rewrite H. auto. Qed.

(** The style switch of a layer, and the same switch once more: the second
    one skips and changes nothing, whatever calls throw. *)
Lemma switchAppliedStyle_twice (catalog : list SharedStyle) (a : LayerAttrs) :
  exists (a1 : LayerAttrs) (r1 : Result),
    caught (switchAppliedStyle t catalog a) = (a1, r1) /\
    caught (switchAppliedStyle t catalog a1) = (a1, one_skipped) /\
    (r1 = one_switched \/ r1 = one_skipped).
Proof.
  assert (Hskip : caught (switchAppliedStyle t catalog a) = (a, one_skipped) ->
                  exists a1 r1,
                    caught (switchAppliedStyle t catalog a) = (a1, r1) /\
                    caught (switchAppliedStyle t catalog a1) = (a1, one_skipped) /\
                    (r1 = one_switched \/ r1 = one_skipped)).
  { intros E. exists a, one_skipped. auto. }
  unfold switchAppliedStyle in *. rewrite read_bind in *. cbv beta in *.
  destruct (sharedStyle a) as [cur|] eqn:Es; [|now apply Hskip].
  destruct (detectCurrentMode (style_name cur)) as [m|] eqn:Ed; [|now apply Hskip].
  destruct (Mode_eqb m t) eqn:Em; cbn [negb] in *; [now apply Hskip|].
  destruct (findStyle catalog (buildTargetName (style_name cur) (mode_str t)))
    as [ts|] eqn:Ef; [|now apply Hskip].
  assert (Hdark : detectCurrentMode (style_name ts) = Some t).
  { rewrite (findStyle_name _ _ _ Ef).
    apply (detect_built _ t (detected_has_two_segments _ _ Ed)). }
  destruct (faults a CSetSharedStyle) as [msg|] eqn:E1.
  { apply Hskip. now rewrite (call_throws _ _ _ _ E1). }
  clear Hskip. rewrite (call_answers _ _ _ E1), set_sharedStyle_bind.
  cbv beta.
  destruct (faults a CSetStyle) as [msg|] eqn:E2.
  - rewrite (call_throws _ _ _ msg) by exact E2. cbn [caught].
    eexists. exists one_skipped. split; [reflexivity|]. split; [|now right].
    rewrite read_bind. cbn [sharedStyle set_sharedStyle fst].
    now rewrite Hdark, Mode_eqb_refl.
  - rewrite call_answers by exact E2. rewrite set_style_bind.
    cbv beta. cbn [caught ret].
    eexists. exists one_switched. split; [reflexivity|]. split; [|now left].
    rewrite read_bind. cbn [sharedStyle set_style set_sharedStyle fst].
    now rewrite Hdark, Mode_eqb_refl.
Qed.

Lemma switchLayerStyle_twice (a : LayerAttrs) :
  exists (a1 : LayerAttrs) (r1 : Result),
    switchLayerStyle doc t a = (a1, r1) /\
    switchLayerStyle doc t a1 = (a1, one_skipped) /\
    (r1 = one_switched \/ r1 = one_skipped).
Proof.
  assert (Hskip : switchLayerStyle doc t a = (a, one_skipped) ->
                  exists a1 r1,
                    switchLayerStyle doc t a = (a1, r1) /\
                    switchLayerStyle doc t a1 = (a1, one_skipped) /\
                    (r1 = one_switched \/ r1 = one_skipped)).
  { intros E. exists a, one_skipped. auto. }
  destruct (faults a CClass) as [msg|] eqn:Ec.
  { apply Hskip. unfold switchLayerStyle, switchLayerStyle_body.
    now rewrite (call_throws _ _ _ _ Ec). }
  destruct (faults a CName) as [msg|] eqn:En.
  { apply Hskip. unfold switchLayerStyle, switchLayerStyle_body.
    repeat host_step. reflexivity. }
  destruct (faults a CFromNative) as [msg|] eqn:Ew.
  { apply Hskip. unfold switchLayerStyle, switchLayerStyle_body.
    repeat host_step. reflexivity. }
  destruct (faults a CDocumentData) as [msg|] eqn:Ed.
  { apply Hskip. unfold switchLayerStyle, switchLayerStyle_body.
    repeat host_step. reflexivity. }
  clear Hskip.
  assert (Hbody : forall a1, same_host a a1 ->
            switchLayerStyle doc t a1 =
            caught (switchAppliedStyle t
                      (if String.eqb (class_name a) "MSTextLayer"
                       then sharedTextStyles doc else sharedLayerStyles doc) a1)).
  { intros a1 (_ & Hc & Hfa). unfold switchLayerStyle, switchLayerStyle_body.
    rewrite !call_answers by (rewrite Hfa; assumption).
    rewrite read_bind. cbv beta.
    rewrite !call_answers by (rewrite Hfa; assumption).
    rewrite Hc. now destruct (String.eqb (class_name a) "MSTextLayer"). }
  destruct (switchAppliedStyle_twice
              (if String.eqb (class_name a) "MSTextLayer"
               then sharedTextStyles doc else sharedLayerStyles doc) a)
    as (a1 & r1 & E1 & E2 & Hr).
  exists a1, r1.
  assert (Hh : same_host a a1).
  { pose proof (switchLayerStyle_outcome doc t a) as Ho.
    rewrite (Hbody a (same_host_refl a)), E1 in Ho. apply Ho. }
  rewrite (Hbody a (same_host_refl a)), E1.
  rewrite (Hbody a1 Hh), E2. auto.
Qed.

(** The symbol switch of a layer whose master name has two segments or
    more, and the same switch once more. *)
Lemma switchSymbolMode_twice (a : LayerAttrs) :
  (forall sm, symbolMaster a = Some sm ->
              2 <= List.length (split NAMING_SEPARATOR (symbol_name sm))) ->
  exists (a1 : LayerAttrs) (r1 r2 : Result),
    switchSymbolMode doc t a = (a1, r1) /\
    switchSymbolMode doc t a1 = (a1, r2) /\
    switched r2 = 0 /\ skipped r2 = switched r1 + skipped r1.
Proof.
  intros Hn.
  pose proof (same_again (switchSymbolMode doc t) a) as Hsame.
  unfold switchSymbolMode, switchSymbolMode_body in *.
  destruct (faults a CSymbolMaster) as [msg|] eqn:Em.
  { apply (Hsame one_skipped); [|reflexivity].
    now rewrite (call_throws _ _ _ _ Em). }
  rewrite (call_answers CSymbolMaster _ a Em) in *.
  rewrite read_bind in *. cbv beta in *.
  destruct (symbolMaster a) as [cur|] eqn:Es.
  2:{ destruct (faults a CName) as [msg|] eqn:En.
      - apply (Hsame one_skipped); [|reflexivity].
        now rewrite (call_throws _ _ _ _ En).
      - apply (Hsame zero); [|reflexivity].
        now rewrite (call_answers _ _ _ En). }
  destruct (is_mode (detectCurrentMode (symbol_name cur)) t) eqn:Ei.
  { now apply (Hsame one_skipped). }
  destruct (faults a CDocumentData) as [msg|] eqn:Ed.
  { apply (Hsame one_skipped); [|reflexivity].
    now rewrite (call_throws _ _ _ _ Ed). }
  rewrite (call_answers CDocumentData _ a Ed) in *.
  destruct (findSymbolByName doc (buildTargetName (symbol_name cur) (mode_str t)))
    as [ts|] eqn:Ef.
  2:{ now apply (Hsame one_skipped). }
  assert (Hdark : is_mode (detectCurrentMode (symbol_name ts)) t = true).
  { rewrite (findSymbolByName_name _ _ Ef), (detect_built _ t (Hn cur eq_refl)).
    apply Mode_eqb_refl. }
  destruct (faults a COverrides) as [msg|] eqn:Eo.
  { apply (Hsame one_skipped); [|reflexivity].
    now rewrite (call_throws _ _ _ _ Eo). }
  rewrite (call_answers COverrides _ a Eo) in *.
  rewrite read_bind in *. cbv beta in *.
  destruct (faults a CChangeInstance) as [msg|] eqn:Eg.
  { apply (Hsame one_skipped); [|reflexivity].
    now rewrite (call_throws _ _ _ _ Eg). }
  clear Hsame.
  rewrite (call_answers CChangeInstance _ a Eg), set_symbolMaster_bind.
  cbv beta.
  assert (Hagain : forall a1 : LayerAttrs,
            faults a1 = faults a -> symbolMaster a1 = Some ts ->
            caught
              ((call CSymbolMaster;;;
                currentSymbol <- read symbolMaster;;
                match currentSymbol with
                | Some current =>
                    if is_mode (detectCurrentMode (symbol_name current)) t
                    then ret one_skipped
                    else
                      call CDocumentData;;;
                      match
                        findSymbolByName doc
                          (buildTargetName (symbol_name current) (mode_str t))
                      with
                      | Some targetSymbol =>
                          call COverrides;;;
                          ov <- read overrides;;
                          call CChangeInstance;;;
                          set_symbolMaster targetSymbol;;;
                          match ov with
                          | Some o => call CSetOverrides;;; set_overrides o
                          | None => ret tt
                          end;;; ret one_switched
                      | None => ret one_skipped
                      end
                | None => call CName;;; ret zero
                end) a1) = (a1, one_skipped)).
  { intros a1 Hfa Hma.
    rewrite call_answers by (rewrite Hfa; exact Em).
    rewrite read_bind, Hma. cbv beta iota. now rewrite Hdark. }
  destruct (overrides a) as [o|] eqn:Eov; cbv iota.
  - rewrite bind_bind.
    destruct (faults a CSetOverrides) as [msg|] eqn:Es'.
    + rewrite (call_throws _ _ _ msg) by exact Es'. cbn [caught].
      eexists. exists one_skipped, one_skipped.
      split; [reflexivity|]. split; [|split; reflexivity].
      now apply Hagain.
    + rewrite call_answers by exact Es'. cbv beta.
      rewrite set_overrides_bind. cbv beta. cbn [caught ret].
      eexists. exists one_switched, one_skipped.
      split; [reflexivity|]. split; [|split; reflexivity].
      now apply Hagain.
  - rewrite ret_bind. cbn [caught ret].
    eexists. exists one_switched, one_skipped.
    split; [reflexivity|]. split; [|split; reflexivity].
    now apply Hagain.
Qed.

(** The test [isSymbolInstance] reads the class, whether there is a master,
    and the fault table. *)
Lemma isSymbolInstance_same (a a1 : LayerAttrs) :
  class_name a1 = class_name a -> faults a1 = faults a ->
  (symbolMaster a = None -> symbolMaster a1 = None) ->
  (symbolMaster a <> None -> symbolMaster a1 <> None) ->
  snd (isSymbolInstance a1) = snd (isSymbolInstance a).
Proof.
  intros Hc Hf Hn Hs. unfold isSymbolInstance.
  destruct (faults a CClass) as [msg|] eqn:Ec.
  { rewrite (call_throws _ _ a msg Ec), (call_throws _ _ a1 msg)
      by (rewrite Hf; exact Ec). reflexivity. }
  rewrite (call_answers _ _ a Ec), (call_answers _ _ a1) by (rewrite Hf; exact Ec).
  rewrite !read_bind, Hc. cbv beta.
  destruct (String.eqb (class_name a) "MSSymbolInstance"); [reflexivity|].
  destruct (includes "MSSymbolInstance" (class_name a)); [reflexivity|].
  rewrite !read_bind. cbv beta.
  destruct (symbolMaster a) as [sm|] eqn:Em.
  - destruct (symbolMaster a1) as [sm1|] eqn:Em1; [|exfalso; now apply Hs].
    destruct (faults a CSymbolMaster) as [msg|] eqn:Ey.
    + rewrite (call_throws _ _ a msg Ey), (call_throws _ _ a1 msg)
        by (rewrite Hf; exact Ey). reflexivity.
    + rewrite (call_answers _ _ a Ey), (call_answers _ _ a1)
        by (rewrite Hf; exact Ey). reflexivity.
  - now rewrite (Hn eq_refl).
Qed.

Lemma isSymbolInstance_returns (a : LayerAttrs) (b : bool) :
  snd (isSymbolInstance a) = Normal b -> b = symbol_instance a.
Proof.
  unfold isSymbolInstance, symbol_instance.
  destruct (faults a CClass) as [msg|] eqn:Ec.
  { now rewrite (call_throws _ _ a msg Ec). }
  rewrite (call_answers _ _ a Ec), read_bind. cbv beta.
  destruct (String.eqb (class_name a) "MSSymbolInstance"); [now intros [= <-]|].
  destruct (includes "MSSymbolInstance" (class_name a)); [now intros [= <-]|].
  rewrite read_bind. cbv beta.
  destruct (symbolMaster a) as [sm|]; [|now intros [= <-]].
  destruct (faults a CSymbolMaster) as [msg|] eqn:Ey.
  - now rewrite (call_throws _ _ a msg Ey).
  - rewrite (call_answers _ _ a Ey). now intros [= <-].
Qed.

(** [processCurrentLayer] after its first two calls have answered. *)
Lemma processCurrentLayer_step (a a1 : LayerAttrs) (rs : Result) :
  faults a CName = None -> faults a CClass = None ->
  switchLayerStyle doc t a = (a1, rs) ->
  processCurrentLayer doc t a =
  if Nat.eqb (switched rs) 0 then
    match snd (isSymbolInstance a1) with
    | Throw _ => (a1, Normal rs)
    | Normal true =>
        let '(a3, symbolResult) := switchSymbolMode doc t a1 in
        (a3, Normal (result_add rs symbolResult))
    | Normal false => (a1, Normal rs)
    end
  else (a1, Normal rs).
Proof.
  intros En Ec Es. unfold processCurrentLayer.
  rewrite (call_answers _ _ a En), (call_answer_eq _ _ Ec), Es.
  rewrite result_add_zero_l.
  destruct (Nat.eqb (switched rs) 0); [|reflexivity].
  pose proof (switchLayerStyle_outcome doc t a) as Ho. rewrite Es in Ho.
  destruct Ho as (_ & (_ & _ & Hf) & _). cbn [fst] in Hf.
  pose proof (isSymbolInstance_state a1) as Hi.
  destruct (isSymbolInstance a1) as [a2 [[|]|msg]]; cbn [fst snd] in *; subst a2;
    try reflexivity.
  unfold log_error_with_name. rewrite call_answers by (rewrite Hf; exact En).
  reflexivity.
Qed.

Lemma processCurrentLayer_class_fault (a : LayerAttrs) (msg : string) :
  faults a CName = None -> faults a CClass = Some msg ->
  processCurrentLayer doc t a = (a, Normal zero).
Proof.
  intros En Ec. unfold processCurrentLayer, log_error_with_name.
  rewrite (call_answers _ _ a En), (call_throw_eq _ _ _ Ec).
  now rewrite (call_answers _ _ a En).
Qed.

(** One layer, two passes: the second pass switches nothing, changes nothing
    and counts as skipped whatever the first pass counted. *)
Lemma processCurrentLayer_twice (a : LayerAttrs) :
  faults a CName = None -> plain_symbol a = true ->
  exists (a1 : LayerAttrs) (r1 r2 : Result),
    processCurrentLayer doc t a = (a1, Normal r1) /\
    processCurrentLayer doc t a1 = (a1, Normal r2) /\
    switched r2 = 0 /\ skipped r2 = switched r1 + skipped r1 /\
    same_host a a1.
Proof.
  intros En Hp.
  destruct (faults a CClass) as [msg|] eqn:Ec.
  { exists a, zero, zero.
    rewrite (processCurrentLayer_class_fault a msg En Ec).
    repeat split; reflexivity. }
  unfold plain_symbol in Hp.
  destruct (symbol_instance a) eqn:Hi; cbn [negb orb] in Hp.
  - (* a symbol instance: no shared style, a master name of two segments *)
    apply Bool.andb_true_iff in Hp as [Hs Hm].
    assert (Es : sharedStyle a = None) by now destruct (sharedStyle a).
    assert (Hn : forall sm, symbolMaster a = Some sm ->
                 2 <= List.length (split NAMING_SEPARATOR (symbol_name sm))).
    { intros sm E. rewrite E in Hm. now apply Nat.leb_le. }
    pose proof (processCurrentLayer_step a a one_skipped En Ec
                  (switchLayerStyle_no_style doc t a Es)) as E1.
    cbn [switched one_skipped Nat.eqb] in E1.
    destruct (snd (isSymbolInstance a)) as [b|msg] eqn:Ei.
    + apply isSymbolInstance_returns in Ei as Hb. rewrite Hi in Hb. subst b.
      destruct (switchSymbolMode_twice a Hn) as (a1 & ry & ry2 & Ey1 & Ey2 & H0 & Hk).
      pose proof (switchSymbolMode_outcome doc t a) as Ho. rewrite Ey1 in Ho.
      destruct Ho as (_ & Hh & Hss & _ & Hnone & Hsome). cbn [fst] in *.
      destruct Hh as (Hname & Hclass & Hfa).
      exists a1, (result_add one_skipped ry), (result_add one_skipped ry2).
      split; [now rewrite E1, Ey1|]. split; [|split; [|split]].
      * rewrite (processCurrentLayer_step a1 a1 one_skipped)
          by first [ rewrite Hfa; assumption
                   | apply switchLayerStyle_no_style; congruence ].
        cbn [switched one_skipped Nat.eqb].
        rewrite (isSymbolInstance_same a a1 Hclass Hfa Hnone Hsome), Ei.
        now rewrite Ey2.
      * simpl. exact H0.
      * simpl. rewrite Hk. lia.
      * now repeat split.
    + exists a, one_skipped, one_skipped. rewrite E1.
      repeat split; reflexivity.
  - (* no symbol instance: the style path alone *)
    destruct (switchLayerStyle_twice a) as (a1 & rs & Es1 & Es2 & Hr).
    pose proof (switchLayerStyle_outcome doc t a) as Ho. rewrite Es1 in Ho.
    destruct Ho as (_ & Hh & Hsm & _). cbn [fst] in *.
    destruct Hh as (Hname & Hclass & Hfa).
    pose proof (symbol_instance_false a Hi) as Hnone.
    assert (Hi1 : snd (isSymbolInstance a1) = Normal false).
    { rewrite isSymbolInstance_answers; [cbn [snd]; f_equal | congruence |].
      - unfold symbol_instance in *. now rewrite Hclass, Hsm.
      - rewrite Hsm, Hnone. congruence. }
    exists a1, rs, one_skipped.
    split; [|split; [|split; [|split]]].
    + rewrite (processCurrentLayer_step a a1 rs En Ec Es1), Hi1.
      now destruct (Nat.eqb (switched rs) 0).
    + rewrite (processCurrentLayer_step a1 a1 one_skipped)
        by first [rewrite Hfa; assumption | exact Es2].
      cbn [switched one_skipped Nat.eqb]. now rewrite Hi1.
    + reflexivity.
    + destruct Hr as [-> | ->]; reflexivity.
    + now repeat split.
Qed.

Lemma walked_cons (process : Layer -> Layer * Completion Result)
  (l : Layer) (ls : list Layer) :
  walked process (l :: ls) = fst (process l) :: walked process ls.
Proof. reflexivity. Qed.

Lemma total_cons (process : Layer -> Layer * Completion Result)
  (l : Layer) (ls : list Layer) :
  total process (l :: ls) =
  result_add (tally_of (snd (process l))) (total process ls).
Proof. reflexivity. Qed.

(** Two passes over a list of layers. *)
Lemma walked_twice (process : Layer -> Layer * Completion Result)
  (ls : list Layer) :
  Forall (two_passes process) ls ->
  Forall (returns process) ls /\
  Forall (returns process) (walked process ls) /\
  walked process (walked process ls) = walked process ls /\
  switched (total process (walked process ls)) = 0 /\
  skipped (total process (walked process ls)) =
    switched (total process ls) + skipped (total process ls).
Proof.
  induction 1 as [|l ls (l1 & r1 & r2 & E1 & E2 & H0 & Hk) _
                    (IH1 & IH2 & IH3 & IH4 & IH5)].
  - repeat split; constructor.
  - rewrite !walked_cons, !total_cons, E1. cbn [fst snd tally_of].
    rewrite ?walked_cons, ?total_cons, E2. cbn [fst snd tally_of].
    split; [constructor; [now exists l1, r1 | exact IH1]|].
    split; [constructor; [now exists l1, r2 | exact IH2]|].
    split; [now rewrite IH3|].
    cbn [result_add switched skipped]. lia.
Qed.

Lemma everywhere_leaf (p : LayerAttrs -> bool) (a : LayerAttrs) :
  everywhere p (Node a None) = p a.
Proof. reflexivity. Qed.

Lemma everywhere_node (p : LayerAttrs -> bool) (a : LayerAttrs)
  (children : list Layer) :
  everywhere p (Node a (Some children)) = p a && forallb (everywhere p) children.
Proof. reflexivity. Qed.

(** Two passes over a tree on which [layer.name()] answers everywhere and
    whose symbol instances are plain. *)
Lemma processLayer_twice (l : Layer) :
  names_answer l = true -> everywhere plain_symbol l = true ->
  two_passes (processLayer doc t) l.
Proof.
  induction l as [a | a children IH] using Layer_induction; intros Hna Hps.
  - apply names_answer_leaf in Hna as En. rewrite everywhere_leaf in Hps.
    destruct (processCurrentLayer_twice a En Hps)
      as (a1 & r1 & r2 & E1 & E2 & H0 & Hk & (_ & _ & Hfa)).
    exists (Node a1 None), r1, r2.
    rewrite (processLayer_leaf doc t a En), E1.
    rewrite (processLayer_leaf doc t a1) by (rewrite Hfa; exact En).
    rewrite E2. auto.
  - apply names_answer_node in Hna as [En Hcn]. rewrite everywhere_node in Hps.
    apply Bool.andb_true_iff in Hps as [Hps Hcp].
    destruct (processCurrentLayer_twice a En Hps)
      as (a1 & r1 & r2 & E1 & E2 & H0 & Hk & (_ & _ & Hfa)).
    destruct (faults a CLayers) as [msg|] eqn:El.
    + exists (Node a1 (Some children)), r1, r2.
      rewrite (processLayer_layers_fault doc t a children msg En El), E1.
      rewrite (processLayer_layers_fault doc t a1 children msg)
        by (rewrite Hfa; assumption).
      rewrite E2. auto.
    + assert (Hc : Forall (two_passes (processLayer doc t)) children).
      { rewrite Forall_forall in *. rewrite forallb_forall in Hcp.
        intros c Hin. apply (IH c Hin); [now apply Hcn | now apply Hcp]. }
      destruct (walked_twice _ _ Hc) as (W1 & W2 & W3 & W4 & W5).
      exists (Node a1 (Some (walked (processLayer doc t) children))),
        (result_add r1 (total (processLayer doc t) children)),
        (result_add r2 (total (processLayer doc t)
                          (walked (processLayer doc t) children))).
      split; [|split; [|split]].
      * rewrite (processLayer_container doc t a children En El W1).
        now rewrite E1.
      * rewrite (processLayer_container doc t a1 _) by
          first [rewrite Hfa; assumption | exact W2].
        now rewrite E2, W3.
      * cbn [result_add switched]. lia.
      * cbn [result_add switched skipped]. lia.
Qed.

End TwoPasses.

Lemma switchMode_of_returns (ctx : Context) (t : Mode) :
  selection ctx <> [] ->
  Forall (returns (processLayer (document ctx) t)) (selection ctx) ->
  switchMode ctx t =
  mkContext (walked (processLayer (document ctx) t) (selection ctx))
    (document ctx)
    (report t (total (processLayer (document ctx) t) (selection ctx))
       :: shown ctx).
Proof.
  intros Hne Hr. unfold switchMode.
  destruct (selection ctx) as [|l ls] eqn:E; [contradiction|].
  cbn [List.length Nat.eqb].
  rewrite (process_all_returns _ _ _ Hr), result_add_zero_l. reflexivity.
Qed.

(** C7 as stated fails: a symbol instance that carries a shared style has
    its style switched by the first pass and its symbol by the second, which
    therefore reports one change and not ["0 changed, 1 skipped"]. *)
Lemma styled_instance_switches_on_second_pass :
  shown (switchToDark styled_selection) =
    ["Switched to Dark Mode: 1 changed, 0 skipped"%string]
  /\ shown (switchToDark (switchToDark styled_selection)) =
     ["Switched to Dark Mode: 1 changed, 1 skipped"%string;
      "Switched to Dark Mode: 1 changed, 0 skipped"%string]
  /\ shown (switchToDark (switchToDark styled_selection)) <>
     ["Switched to Dark Mode: 0 changed, 1 skipped"%string;
      "Switched to Dark Mode: 1 changed, 0 skipped"%string].
Proof.
  repeat split; try (vm_compute; reflexivity).
  vm_compute. discriminate.
Qed.

(** A master name without separator carries no mode; the symbol path does
    not skip on it, it finds the master under its own name and switches the
    instance to it, on every pass. *)
Example separator_less_master_switches_on_every_pass :
  shown (switchToDark (switchToDark logo_selection)) =
  ["Switched to Dark Mode: 1 changed, 1 skipped"%string;
   "Switched to Dark Mode: 1 changed, 1 skipped"%string].
Proof. vm_compute. reflexivity. Qed.

(** C7, amended.  Take a non-empty selection on which [layer.name()]
    answers everywhere, in which no symbol instance carries an applied
    shared style and every symbol master name has two segments or more.
    Switching it to a mode twice in a row, the second pass changes no layer
    and switches nothing, and it counts as skipped everything the first pass
    counted, so every layer switched by the first pass is skipped by the
    second. *)
Theorem second_pass_switches_nothing (ctx : Context) (t : Mode) :
  selection ctx <> [] ->
  forallb names_answer (selection ctx) = true ->
  forallb (everywhere plain_symbol) (selection ctx) = true ->
  exists (after : list Layer) (first_pass : Result),
    switchMode ctx t =
      mkContext after (document ctx) (report t first_pass :: shown ctx)
    /\ switchMode (switchMode ctx t) t =
       mkContext after (document ctx)
         (report t (mkResult 0 (switched first_pass + skipped first_pass))
            :: report t first_pass :: shown ctx).
Proof.
  intros Hne Hff Hps.
  assert (Hc : Forall (two_passes (processLayer (document ctx) t)) (selection ctx)).
  { apply Forall_forall. intros l Hin. rewrite forallb_forall in Hff, Hps.
    apply processLayer_twice; [now apply Hff | now apply Hps]. }
  destruct (walked_twice _ _ Hc) as (W1 & W2 & W3 & W4 & W5).
  exists (walked (processLayer (document ctx) t) (selection ctx)),
    (total (processLayer (document ctx) t) (selection ctx)).
  rewrite (switchMode_of_returns ctx t Hne W1). split; [reflexivity|].
  rewrite switchMode_of_returns; cbn [selection document shown].
  - rewrite W3. do 2 f_equal. f_equal.
    destruct (total (processLayer (document ctx) t)
                (walked (processLayer (document ctx) t) (selection ctx)))
      as [sw sk]. cbn [switched skipped] in W4, W5. now subst.
  - destruct (selection ctx); [contradiction | discriminate].
  - exact W2.
Qed.

Lemma second_pass_switches_nothing_witness :
  exists (after : list Layer) (first_pass : Result),
    switchMode mixed_selection DARK =
      mkContext after library [report DARK first_pass]
    /\ switchMode (switchMode mixed_selection DARK) DARK =
       mkContext after library
         [report DARK (mkResult 0 (switched first_pass + skipped first_pass));
          report DARK first_pass].
Proof.
  apply (second_pass_switches_nothing mixed_selection DARK);
    [discriminate | reflexivity | reflexivity].
Defined.

(** The two reports of [mixed_selection]. *)
Example mixed_selection_reports :
  shown (switchToDark (switchToDark mixed_selection)) =
  ["Switched to Dark Mode: 0 changed, 9 skipped"%string;
   "Switched to Dark Mode: 4 changed, 5 skipped"%string].
Proof. vm_compute. reflexivity. Qed.

(* ================================================================== *)
(** * Further properties of the code *)

(** X1.  On a layer on which [layer.name()] answers, [processCurrentLayer]
    returns a tally with at most one switch and at most two skips, one per
    switch path, and leaves the name, the class and the fault table of the
    layer as they are. *)
Theorem per_layer_tally_bounds (doc : Document) (t : Mode) (a : LayerAttrs) :
  faults a CName = None ->
  exists (a' : LayerAttrs) (r : Result),
    processCurrentLayer doc t a = (a', Normal r) /\
    switched r <= 1 /\ skipped r <= 2 /\ same_host a a'.
Proof.
  intros En.
  destruct (processCurrentLayer_returns doc t a En) as (a' & r & E & Hh & H1 & H2).
  exists a', r. auto.
Qed.

Lemma per_layer_tally_bounds_witness :
  exists (a' : LayerAttrs) (r : Result),
    processCurrentLayer library DARK styled_button = (a', Normal r) /\
    switched r <= 1 /\ skipped r <= 2 /\ same_host styled_button a'.
Proof. apply (per_layer_tally_bounds library DARK styled_button eq_refl). Defined.

(** X2.  When [layer.name()] throws on a layer, the error leaves
    [processLayer]: the [catch] blocks of [processCurrentLayer] and of
    [processLayer] both print the name and throw again; the layer and its
    children are left as they are. *)
Theorem name_fault_escapes (doc : Document) (t : Mode) (a : LayerAttrs)
  (ch : option (list Layer)) (msg : string) :
  faults a CName = Some msg ->
  processLayer doc t (Node a ch) = (Node a ch, Throw msg).
Proof. apply processLayer_escapes. Qed.

Lemma name_fault_escapes_witness :
  processLayer library DARK (Node broken_name (Some [Node light_text None])) =
  (Node broken_name (Some [Node light_text None]), Throw "name failed"%string).
Proof.
  apply (name_fault_escapes library DARK broken_name
           (Some [Node light_text None]) "name failed" eq_refl).
Defined.

(** X3.  Building a target name again overwrites the mode built before, and
    building the mode a name already has gives the name back: a name whose
    second segment is ["light"] comes back unchanged from dark to light. *)
Theorem buildTargetName_round_trip (name t1 t2 : string) :
  slash_free t1 = true ->
  buildTargetName (buildTargetName name t1) t2 = buildTargetName name t2
  /\ (2 <= List.length (split NAMING_SEPARATOR name) ->
      nth 1 (split NAMING_SEPARATOR name) EmptyString = t2 ->
      buildTargetName (buildTargetName name t1) t2 = name).
Proof.
  intros Ht.
  assert (Hover : buildTargetName (buildTargetName name t1) t2 =
                  buildTargetName name t2).
  { pose proof (split_segments_slash_free name) as Hs.
    destruct (split NAMING_SEPARATOR name) as [|p0 [|p1 rest]] eqn:E.
    - now apply split_not_nil in E.
    - rewrite (buildTargetName_short name t1) by (rewrite E; simpl; lia).
      reflexivity.
    - rewrite (buildTargetName_segments _ t1 _ _ _ E).
      rewrite (buildTargetName_segments _ t2 _ _ _ E).
      apply buildTargetName_segments with (p1 := t1). apply split_join.
      cbn [forallb] in *. apply Bool.andb_true_iff in Hs as [H0 Hs].
      apply Bool.andb_true_iff in Hs as [_ Hr]. now rewrite H0, Ht, Hr. }
  split; [exact Hover|].
  intros Hl Hn. rewrite Hover.
  destruct (split NAMING_SEPARATOR name) as [|p0 [|p1 rest]] eqn:E;
    simpl in Hl; try lia.
  rewrite (buildTargetName_segments _ t2 _ _ _ E).
  cbn [nth] in Hn. subst t2. rewrite <- E. apply join_split.
Qed.

Lemma buildTargetName_round_trip_witness :
  buildTargetName (buildTargetName "button/light/primary" "dark") "light" =
  "button/light/primary"%string.
Proof.
  apply (proj2 (buildTargetName_round_trip "button/light/primary" "dark" "light"
                  eq_refl));
    [simpl; lia | reflexivity].
Defined.

(** X4.  [findSymbolByName] answers the first master of the catalog whose
    name is exactly the name asked for, and nothing when there is none. *)
Theorem findSymbolByName_first_match (doc : Document) (name : string) :
  match findSymbolByName doc name with
  | Some sy =>
      symbol_name sy = name /\
      exists before after : list SymbolMaster,
        allSymbols doc = before ++ sy :: after /\
        Forall (fun x => symbol_name x <> name) before
  | None => Forall (fun x => symbol_name x <> name) (allSymbols doc)
  end.
Proof.
  unfold findSymbolByName.
  induction (allSymbols doc) as [|x xs IH]; cbn [find].
  - constructor.
  - destruct (String.eqb_spec (symbol_name x) name) as [E|E].
    + split; [exact E|]. exists [], xs. split; [reflexivity | constructor].
    + destruct (find (fun sy => String.eqb (symbol_name sy) name) xs) as [sy|].
      * destruct IH as (Hn & before & after & Hcat & Hb).
        split; [exact Hn|]. exists (x :: before), after.
        split; [now rewrite Hcat | now constructor].
      * now constructor.
Qed.

(* ================================================================== *)
(** * Decoding what was encoded *)

Section CodecFurther.

Local Open Scope string_scope.
Local Abbreviation sep := NAMING_SEPARATOR.
Local Abbreviation slash := "/"%char.
Local Arguments Ascii.eqb : simpl never.

(** X5.  Decoding an encoded name: when the name has two segments or more,
    the name built for a target mode decodes to that mode, whatever the
    second segment was; when it has fewer, the name comes back as it is and
    decodes to no mode. *)
Theorem decode_of_encode (name : string) (t : Mode) :
  detectCurrentMode (buildTargetName name (mode_str t)) =
  if Nat.leb 2 (List.length (split sep name)) then Some t else None.
Proof.
  destruct (Nat.leb_spec 2 (List.length (split sep name))) as [Hl|Hl].
  - now apply detect_built.
  - rewrite (buildTargetName_short name _ Hl).
    unfold detectCurrentMode. cbv zeta.
    destruct (Nat.leb_spec 2 (List.length (split sep name))); [lia|reflexivity].
Qed.

Lemma lower_char_slash (c : ascii) :
  Ascii.eqb slash (lower_char c) = Ascii.eqb slash c.
Proof. destruct c as [[] [] [] [] [] [] [] []]; reflexivity. Qed.

Lemma lower_char_idempotent (c : ascii) :
  lower_char (lower_char c) = lower_char c.
Proof. destruct c as [[] [] [] [] [] [] [] []]; reflexivity. Qed.

Lemma toLowerCase_idempotent (s : string) :
  toLowerCase (toLowerCase s) = toLowerCase s.
Proof.
  unfold toLowerCase. induction s as [|c s IH]; cbn [map_chars].
  - reflexivity.
  - now rewrite lower_char_idempotent, IH.
Qed.

(** Lower-casing a name lower-cases each of its segments. *)
Lemma split_toLowerCase (s : string) :
  split sep (toLowerCase s) = map toLowerCase (split sep s).
Proof.
  unfold toLowerCase. induction s as [|c s IH]; [reflexivity|].
  cbn [map_chars]. rewrite !split_cons, lower_char_slash, IH.
  destruct (Ascii.eqb slash c); [reflexivity|].
  destruct (split sep s); reflexivity.
Qed.

(** X6.  Mode detection does not depend on the letter case of the name:
    a name and its lower-cased form decode to the same mode. *)
Theorem detectCurrentMode_ignores_case (name : string) :
  detectCurrentMode (toLowerCase name) = detectCurrentMode name.
Proof.
  unfold detectCurrentMode. cbv zeta.
  rewrite split_toLowerCase, length_map.
  destruct (Nat.leb 2 (List.length (split sep name))); [|reflexivity].
  replace (nth 1 (map toLowerCase (split sep name)) "")
    with (toLowerCase (nth 1 (split sep name) ""))
    by (symmetry; exact (map_nth toLowerCase (split sep name) "" 1)).
  now rewrite toLowerCase_idempotent.
Qed.

End CodecFurther.

(* ================================================================== *)
(** * What a switch does to a layer *)

Section SwitchEffects.

Variable doc : Document.
Variable t : Mode.

Local Arguments detectCurrentMode : simpl never.
Local Arguments buildTargetName : simpl never.
Local Arguments findStyle : simpl never.
Local Arguments findSymbolByName : simpl never.
Local Arguments String.eqb : simpl never.
Local Arguments includes : simpl never.

(** Closes a case in which nothing was switched. *)
Ltac not_switched :=
  cbn [caught ret]; intros [= <- <-]; cbn [switched one_skipped zero];
  discriminate.

Lemma Mode_eqb_false (m1 m2 : Mode) : Mode_eqb m1 m2 = false -> m1 <> m2.
Proof. intros H <-. now rewrite Mode_eqb_refl in H. Qed.

Lemma switchAppliedStyle_effect (catalog : list SharedStyle)
  (a a' : LayerAttrs) (r : Result) :
  caught (switchAppliedStyle t catalog a) = (a', r) -> switched r = 1 ->
  exists (cur ts : SharedStyle) (m : Mode),
    sharedStyle a = Some cur /\
    detectCurrentMode (style_name cur) = Some m /\ m <> t /\
    findStyle catalog (buildTargetName (style_name cur) (mode_str t)) = Some ts /\
    sharedStyle a' = Some ts /\ style a' = style_props ts /\
    detectCurrentMode (style_name ts) = Some t.
Proof.
  unfold switchAppliedStyle. rewrite read_bind. cbv beta.
  destruct (sharedStyle a) as [cur|] eqn:Es; [|not_switched].
  destruct (detectCurrentMode (style_name cur)) as [m|] eqn:Ed; [|not_switched].
  destruct (Mode_eqb m t) eqn:Em; cbn [negb]; [not_switched|].
  destruct (findStyle catalog (buildTargetName (style_name cur) (mode_str t)))
    as [ts|] eqn:Ef; [|not_switched].
  destruct (faults a CSetSharedStyle) as [msg|] eqn:E1.
  { rewrite (call_throws _ _ _ _ E1). not_switched. }
  rewrite (call_answers _ _ _ E1), set_sharedStyle_bind. cbv beta.
  destruct (faults a CSetStyle) as [msg|] eqn:E2.
  { rewrite (call_throws _ _ _ msg) by exact E2. not_switched. }
  rewrite call_answers by exact E2. rewrite set_style_bind. cbv beta.
  cbn [caught ret]. intros [= <- <-] _.
  exists cur, ts, m. repeat split; auto.
  - now apply Mode_eqb_false.
  - rewrite (findStyle_name _ _ _ Ef).
    apply (detect_built _ t (detected_has_two_segments _ _ Ed)).
Qed.

(** X7.  When the style path switches a layer, the layer had a shared style
    whose name decodes to the other mode; its new shared style is the first
    style, in the catalog of the layer's class (text styles for a text layer,
    layer styles otherwise), that has the built target name; the layer's own
    style properties are those of the new style; the new style's name decodes
    to the target mode; the symbol master, the overrides, the name and the
    class of the layer are untouched. *)
Theorem style_switch_effect (a a' : LayerAttrs) (r : Result) :
  switchLayerStyle doc t a = (a', r) -> switched r = 1 ->
  exists (cur ts : SharedStyle) (m : Mode),
    sharedStyle a = Some cur /\
    detectCurrentMode (style_name cur) = Some m /\ m <> t /\
    findStyle (catalog_of doc a)
      (buildTargetName (style_name cur) (mode_str t)) = Some ts /\
    sharedStyle a' = Some ts /\ style a' = style_props ts /\
    detectCurrentMode (style_name ts) = Some t /\
    symbolMaster a' = symbolMaster a /\ overrides a' = overrides a /\
    same_host a a'.
Proof.
  intros H Hs.
  pose proof (switchLayerStyle_outcome doc t a) as Ho. rewrite H in Ho.
  destruct Ho as (_ & Hh & Hm & Ho). cbn [fst] in *.
  revert H Hs. unfold switchLayerStyle, switchLayerStyle_body, catalog_of.
  destruct (faults a CClass) as [msg|] eqn:Ec.
  { rewrite (call_throws _ _ _ _ Ec). not_switched. }
  rewrite (call_answers _ _ _ Ec), read_bind. cbv beta.
  destruct (faults a CName) as [msg|] eqn:En.
  { rewrite (call_throws _ _ _ _ En). not_switched. }
  rewrite (call_answers _ _ _ En).
  destruct (faults a CFromNative) as [msg|] eqn:Ew.
  { rewrite (call_throws _ _ _ _ Ew). not_switched. }
  rewrite (call_answers _ _ _ Ew).
  destruct (faults a CDocumentData) as [msg|] eqn:Ed.
  { rewrite (call_throws _ _ _ _ Ed). not_switched. }
  rewrite (call_answers _ _ _ Ed).
  intros H Hs.
  assert (Heff : caught (switchAppliedStyle t
                   (if String.eqb (class_name a) "MSTextLayer"
                    then sharedTextStyles doc else sharedLayerStyles doc) a)
                 = (a', r)).
  { now destruct (String.eqb (class_name a) "MSTextLayer"). }
  destruct (switchAppliedStyle_effect _ _ _ _ Heff Hs)
    as (cur & ts & m & H1 & H2 & H3 & H4 & H5 & H6 & H7).
  exists cur, ts, m. repeat split; auto; apply Hh.
Qed.

(** X8.  When the symbol path switches an instance, the instance had a master
    whose name does not decode to the target mode; its new master is the
    first master of the catalog that has the built target name; the overrides
    read before the swap are the overrides of the instance after it; the
    shared style, the style properties, the name and the class are
    untouched. *)
Theorem symbol_switch_effect (a a' : LayerAttrs) (r : Result) :
  switchSymbolMode doc t a = (a', r) -> switched r = 1 ->
  exists cur ts : SymbolMaster,
    symbolMaster a = Some cur /\
    detectCurrentMode (symbol_name cur) <> Some t /\
    findSymbolByName doc (buildTargetName (symbol_name cur) (mode_str t))
      = Some ts /\
    symbolMaster a' = Some ts /\
    overrides a' = overrides a /\
    sharedStyle a' = sharedStyle a /\ style a' = style a /\
    same_host a a'.
Proof.
  intros H Hs.
  pose proof (switchSymbolMode_outcome doc t a) as Ho. rewrite H in Ho.
  destruct Ho as (_ & Hh & Hss & Hst & _). cbn [fst] in *.
  revert H Hs. unfold switchSymbolMode, switchSymbolMode_body.
  destruct (faults a CSymbolMaster) as [msg|] eqn:Em.
  { rewrite (call_throws _ _ _ _ Em). not_switched. }
  rewrite (call_answers _ _ _ Em), read_bind. cbv beta.
  destruct (symbolMaster a) as [cur|] eqn:Es.
  2:{ destruct (faults a CName) as [msg|] eqn:En.
      - rewrite (call_throws _ _ _ _ En). not_switched.
      - rewrite (call_answers _ _ _ En). not_switched. }
  destruct (is_mode (detectCurrentMode (symbol_name cur)) t) eqn:Ei;
    [not_switched|].
  destruct (faults a CDocumentData) as [msg|] eqn:Ed.
  { rewrite (call_throws _ _ _ _ Ed). not_switched. }
  rewrite (call_answers _ _ _ Ed).
  destruct (findSymbolByName doc (buildTargetName (symbol_name cur) (mode_str t)))
    as [ts|] eqn:Ef; [|not_switched].
  destruct (faults a COverrides) as [msg|] eqn:Eo.
  { rewrite (call_throws _ _ _ _ Eo). not_switched. }
  rewrite (call_answers _ _ _ Eo), read_bind. cbv beta.
  destruct (faults a CChangeInstance) as [msg|] eqn:Eg.
  { rewrite (call_throws _ _ _ _ Eg). not_switched. }
  rewrite (call_answers _ _ _ Eg), set_symbolMaster_bind. cbv beta.
  assert (Hnot : detectCurrentMode (symbol_name cur) <> Some t).
  { intros E. rewrite E in Ei. cbn [is_mode] in Ei.
    now rewrite Mode_eqb_refl in Ei. }
  destruct (overrides a) as [o|] eqn:Eov; cbv iota.
  - rewrite bind_bind.
    destruct (faults a CSetOverrides) as [msg|] eqn:Es'.
    { rewrite (call_throws _ _ _ msg) by exact Es'. not_switched. }
    rewrite call_answers by exact Es'. cbv beta.
    rewrite set_overrides_bind. cbv beta. cbn [caught ret].
    intros [= <- <-] _. exists cur, ts. cbn. repeat split; auto; apply Hh.
  - rewrite ret_bind. cbn [caught ret].
    intros [= <- <-] _. exists cur, ts. cbn. repeat split; auto; apply Hh.
Qed.

End SwitchEffects.

Lemma style_switch_effect_witness :
  exists (cur ts : SharedStyle) (m : Mode),
    sharedStyle light_text = Some cur /\
    detectCurrentMode (style_name cur) = Some m /\ m <> DARK /\
    findStyle (catalog_of library light_text)
      (buildTargetName (style_name cur) (mode_str DARK)) = Some ts /\
    sharedStyle dark_text = Some ts /\ style dark_text = style_props ts /\
    detectCurrentMode (style_name ts) = Some DARK /\
    symbolMaster dark_text = symbolMaster light_text /\
    overrides dark_text = overrides light_text /\
    same_host light_text dark_text.
Proof.
  apply (style_switch_effect library DARK light_text dark_text one_switched);
    reflexivity.
Defined.

Lemma symbol_switch_effect_witness :
  exists cur ts : SymbolMaster,
    symbolMaster light_button = Some cur /\
    detectCurrentMode (symbol_name cur) <> Some DARK /\
    findSymbolByName library (buildTargetName (symbol_name cur) (mode_str DARK))
      = Some ts /\
    symbolMaster dark_button = Some ts /\
    overrides dark_button = overrides light_button /\
    sharedStyle dark_button = sharedStyle light_button /\
    style dark_button = style light_button /\
    same_host light_button dark_button.
Proof.
  apply (symbol_switch_effect library DARK light_button dark_button one_switched);
    reflexivity.
Defined.

(* ================================================================== *)
(** * What a walk keeps and what it counts *)

Section WalkFacts.

Variable doc : Document.
Variable t : Mode.

Local Arguments detectCurrentMode : simpl never.
Local Arguments buildTargetName : simpl never.
Local Arguments findStyle : simpl never.
Local Arguments findSymbolByName : simpl never.
Local Arguments String.eqb : simpl never.
Local Arguments includes : simpl never.

(** The ways [processLayer] ends on a layer: the name throws and the error
    leaves; or the layer is processed and the layer has no children, or
    [layers()] throws, or the loop over the children ends, by itself or on a
    child's error that the layer's [catch] block absorbs. *)
Lemma processLayer_cases (a : LayerAttrs) (ch : option (list Layer))
  (l' : Layer) (c : Completion Result) :
  processLayer doc t (Node a ch) = (l', c) ->
  (exists msg, faults a CName = Some msg /\ l' = Node a ch /\ c = Throw msg)
  \/ (faults a CName = None /\
      exists (a' : LayerAttrs) (own : Result),
        processCurrentLayer doc t a = (a', Normal own) /\
        ((ch = None /\ l' = Node a' None /\ c = Normal own)
         \/ (exists children msg,
               ch = Some children /\ faults a CLayers = Some msg /\
               l' = Node a' (Some children) /\ c = Normal own)
         \/ (exists children children' sum cc,
               ch = Some children /\ faults a CLayers = None /\
               process_all (processLayer doc t) children own
                 = (children', sum, cc) /\
               l' = Node a' (Some children') /\ c = Normal sum))).
Proof.
  destruct (faults a CName) as [msg|] eqn:En.
  { rewrite (processLayer_escapes doc t a ch msg En). intros [= <- <-].
    left. now exists msg. }
  intros H. right. split; [reflexivity|].
  destruct (processCurrentLayer_returns doc t a En)
    as (a' & own & E & (_ & _ & Hf) & _).
  exists a', own. split; [exact E|].
  rewrite processLayer_eq, E in H. cbv zeta in H.
  rewrite result_add_zero_l in H.
  assert (Hlog : forall r, log_error_with_name r a' = (a', Normal r)).
  { intros r. unfold log_error_with_name.
    rewrite call_answers by (rewrite Hf; exact En). reflexivity. }
  destruct ch as [children|].
  2:{ injection H as <- <-. now left. }
  destruct (faults a CLayers) as [msg|] eqn:El.
  - rewrite (call_throw_eq CLayers a' msg) in H by (rewrite Hf; exact El).
    rewrite Hlog in H. injection H as <- <-.
    right; left. now exists children, msg.
  - rewrite (call_answer_eq CLayers a') in H by (rewrite Hf; exact El).
    destruct (process_all (processLayer doc t) children own)
      as [[children' sum] cc] eqn:Ep.
    right; right. exists children, children', sum, cc.
    destruct cc as [u|msg].
    + injection H as <- <-. auto.
    + rewrite Hlog in H. injection H as <- <-. auto.
Qed.

(** An error that leaves [processLayer] leaves the tree as it was. *)
Lemma processLayer_throw_unchanged (l l' : Layer) (msg : string) :
  processLayer doc t l = (l', Throw msg) -> l' = l.
Proof.
  destruct l as [a ch]. intros H.
  apply processLayer_cases in H
    as [(m & _ & -> & _) | (_ & a' & own & _ & [H | [H | H]])].
  - reflexivity.
  - now destruct H as (_ & _ & [=]).
  - now destruct H as (cs & m & _ & _ & _ & [=]).
  - now destruct H as (cs & cs' & sum & cc & _ & _ & _ & _ & [=]).
Qed.

Lemma processCurrentLayer_same_host (a a' : LayerAttrs)
  (c : Completion Result) :
  processCurrentLayer doc t a = (a', c) -> same_host a a'.
Proof.
  destruct (faults a CName) as [msg|] eqn:En.
  - rewrite (processCurrentLayer_escapes doc t a msg En). intros [= <- _].
    apply same_host_refl.
  - destruct (processCurrentLayer_returns doc t a En) as (a1 & r & E & Hh & _).
    rewrite E. now intros [= <- _].
Qed.

(** The loop keeps the shapes of the layers when the processing of each
    layer does. *)
Lemma process_all_shape (process : Layer -> Layer * Completion Result)
  (ls : list Layer) (acc : Result) :
  Forall (fun l => shape_of (fst (process l)) = shape_of l) ls ->
  map shape_of (fst (fst (process_all process ls acc))) = map shape_of ls.
Proof.
  intros H. revert acc. induction H as [|l ls Hl _ IH]; intros acc.
  - reflexivity.
  - cbn [process_all]. destruct (process l) as [l1 [r|msg]]; cbn [fst] in Hl.
    + specialize (IH (result_add acc r)).
      destruct (process_all process ls (result_add acc r)) as [[rest' tot] c].
      cbn [fst map] in *. now rewrite Hl, IH.
    + cbn [fst map]. now rewrite Hl.
Qed.

Lemma processLayer_shape (l : Layer) :
  shape_of (fst (processLayer doc t l)) = shape_of l.
Proof.
  induction l as [a | a children IH] using Layer_induction.
  - destruct (processLayer doc t (Node a None)) as [l' c] eqn:E.
    apply processLayer_cases in E
      as [(m & _ & -> & _) | (_ & a' & own & Ep & [H | [H | H]])];
      [reflexivity | | | ].
    + destruct H as (_ & -> & _).
      apply processCurrentLayer_same_host in Ep as (Hn & Hc & _).
      cbn. now rewrite Hn, Hc.
    + now destruct H as (cs & m & [=] & _).
    + now destruct H as (cs & cs' & sum & cc & [=] & _).
  - destruct (processLayer doc t (Node a (Some children))) as [l' c] eqn:E.
    apply processLayer_cases in E
      as [(m & _ & -> & _) | (_ & a' & own & Ep & [H | [H | H]])];
      [reflexivity | | | ];
      apply processCurrentLayer_same_host in Ep as (Hn & Hc & _).
    + now destruct H as ([=] & _).
    + destruct H as (cs & m & [= <-] & _ & -> & _).
      cbn. now rewrite Hn, Hc.
    + destruct H as (cs & cs' & sum & cc & [= <-] & _ & Hp & -> & _).
      pose proof (process_all_shape (processLayer doc t) children own IH) as Hs.
      rewrite Hp in Hs. cbn [fst] in Hs.
      cbn. now rewrite Hn, Hc, Hs.
Qed.

End WalkFacts.

(** X9.  A walk never renames a layer, never changes its class and never
    adds, drops or reorders layers: the tree [processLayer] leaves has the
    shape of the tree it was given, whatever host calls throw; so have the
    selection after [switchMode] and the page after [switchEntirePage]. *)
Theorem walk_keeps_the_shape (doc : Document) (t : Mode) :
  (forall l : Layer, shape_of (fst (processLayer doc t l)) = shape_of l)
  /\ (forall ctx : Context,
        map shape_of (selection (switchMode ctx t))
        = map shape_of (selection ctx))
  /\ (forall ctx : PageContext,
        map shape_of (page_layers (switchEntirePage ctx t))
        = map shape_of (page_layers ctx)).
Proof.
  split; [apply processLayer_shape|]. split.
  - intros ctx. unfold switchMode.
    destruct (Nat.eqb (List.length (selection ctx)) 0); [reflexivity|].
    pose proof (process_all_shape (processLayer (document ctx) t)
                  (selection ctx) zero) as Hs.
    destruct (process_all (processLayer (document ctx) t) (selection ctx) zero)
      as [[sel' tot] [u|msg]]; cbn [fst] in Hs; cbn;
      apply Hs, Forall_forall; intros l _; apply processLayer_shape.
  - intros ctx. unfold switchEntirePage.
    pose proof (process_all_shape (processLayer (page_document ctx) t)
                  (page_layers ctx) zero) as Hs.
    destruct (process_all (processLayer (page_document ctx) t)
                (page_layers ctx) zero)
      as [[sel' tot] [u|msg]]; cbn [fst] in Hs; cbn;
      apply Hs, Forall_forall; intros l _; apply processLayer_shape.
Qed.

(* ================================================================== *)
(** * Nothing switched, nothing changed *)

Section NothingSwitched.

Variable doc : Document.
Variable t : Mode.

Local Arguments detectCurrentMode : simpl never.
Local Arguments buildTargetName : simpl never.
Local Arguments findStyle : simpl never.
Local Arguments findSymbolByName : simpl never.
Local Arguments String.eqb : simpl never.
Local Arguments includes : simpl never.

(** Closes a case in which the layer is returned as it came. *)
Ltac kept := cbn [caught ret]; now intros [= <- _].

Lemma switchAppliedStyle_unchanged (catalog : list SharedStyle)
  (a a' : LayerAttrs) (r : Result) :
  faults a CSetStyle = None ->
  caught (switchAppliedStyle t catalog a) = (a', r) -> switched r = 0 -> a' = a.
Proof.
  intros E2. unfold switchAppliedStyle. rewrite read_bind. cbv beta.
  destruct (sharedStyle a) as [cur|]; [|kept].
  destruct (detectCurrentMode (style_name cur)) as [m|]; [|kept].
  destruct (Mode_eqb m t); cbn [negb]; [kept|].
  destruct (findStyle catalog (buildTargetName (style_name cur) (mode_str t)))
    as [ts|]; [|kept].
  destruct (faults a CSetSharedStyle) as [msg|] eqn:E1.
  { rewrite (call_throws _ _ _ _ E1). kept. }
  rewrite (call_answers _ _ _ E1), set_sharedStyle_bind. cbv beta.
  rewrite call_answers by exact E2. rewrite set_style_bind. cbv beta.
  cbn [caught ret]. intros [= _ <-]. discriminate.
Qed.

Lemma switchLayerStyle_unchanged (a a' : LayerAttrs) (r : Result) :
  faults a CSetStyle = None ->
  switchLayerStyle doc t a = (a', r) -> switched r = 0 -> a' = a.
Proof.
  intros E2. unfold switchLayerStyle, switchLayerStyle_body.
  destruct (faults a CClass) as [msg|] eqn:Ec.
  { rewrite (call_throws _ _ _ _ Ec). kept. }
  rewrite (call_answers _ _ _ Ec), read_bind. cbv beta.
  destruct (faults a CName) as [msg|] eqn:En.
  { rewrite (call_throws _ _ _ _ En). kept. }
  rewrite (call_answers _ _ _ En).
  destruct (faults a CFromNative) as [msg|] eqn:Ew.
  { rewrite (call_throws _ _ _ _ Ew). kept. }
  rewrite (call_answers _ _ _ Ew).
  destruct (faults a CDocumentData) as [msg|] eqn:Ed.
  { rewrite (call_throws _ _ _ _ Ed). kept. }
  rewrite (call_answers _ _ _ Ed).
  destruct (String.eqb (class_name a) "MSTextLayer");
    now apply switchAppliedStyle_unchanged.
Qed.

Lemma switchSymbolMode_unchanged (a a' : LayerAttrs) (r : Result) :
  faults a CSetOverrides = None ->
  switchSymbolMode doc t a = (a', r) -> switched r = 0 -> a' = a.
Proof.
  intros E2. unfold switchSymbolMode, switchSymbolMode_body.
  destruct (faults a CSymbolMaster) as [msg|] eqn:Em.
  { rewrite (call_throws _ _ _ _ Em). kept. }
  rewrite (call_answers _ _ _ Em), read_bind. cbv beta.
  destruct (symbolMaster a) as [cur|] eqn:Es.
  2:{ destruct (faults a CName) as [msg|] eqn:En.
      - rewrite (call_throws _ _ _ _ En). kept.
      - rewrite (call_answers _ _ _ En). kept. }
  destruct (is_mode (detectCurrentMode (symbol_name cur)) t); [kept|].
  destruct (faults a CDocumentData) as [msg|] eqn:Ed.
  { rewrite (call_throws _ _ _ _ Ed). kept. }
  rewrite (call_answers _ _ _ Ed).
  destruct (findSymbolByName doc (buildTargetName (symbol_name cur) (mode_str t)))
    as [ts|]; [|kept].
  destruct (faults a COverrides) as [msg|] eqn:Eo.
  { rewrite (call_throws _ _ _ _ Eo). kept. }
  rewrite (call_answers _ _ _ Eo), read_bind. cbv beta.
  destruct (faults a CChangeInstance) as [msg|] eqn:Eg.
  { rewrite (call_throws _ _ _ _ Eg). kept. }
  rewrite (call_answers _ _ _ Eg), set_symbolMaster_bind. cbv beta.
  destruct (overrides a) as [o|]; cbv iota.
  - rewrite bind_bind. rewrite call_answers by exact E2. cbv beta.
    rewrite set_overrides_bind. cbv beta. cbn [caught ret].
    intros [= _ <-]. discriminate.
  - rewrite ret_bind. cbn [caught ret]. intros [= _ <-]. discriminate.
Qed.

Lemma setters_answer_faults (a : LayerAttrs) :
  setters_answer a = true ->
  faults a CSetStyle = None /\ faults a CSetOverrides = None.
Proof.
  unfold setters_answer, answers.
  destruct (faults a CSetStyle), (faults a CSetOverrides);
    cbn; intros H; try discriminate; auto.
Qed.

Lemma processCurrentLayer_unchanged (a a' : LayerAttrs) (r : Result) :
  setters_answer a = true ->
  processCurrentLayer doc t a = (a', Normal r) -> switched r = 0 -> a' = a.
Proof.
  intros Hs. apply setters_answer_faults in Hs as (E1 & E2).
  destruct (faults a CName) as [msg|] eqn:En.
  { now rewrite (processCurrentLayer_escapes doc t a msg En). }
  destruct (faults a CClass) as [msg|] eqn:Ec.
  { rewrite (processCurrentLayer_class_fault doc t a msg En Ec).
    now intros [= <- _]. }
  destruct (switchLayerStyle doc t a) as [a1 rs] eqn:Es.
  rewrite (processCurrentLayer_step doc t a a1 rs En Ec Es).
  destruct (Nat.eqb (switched rs) 0) eqn:Ez.
  2:{ intros [= <- <-] H. rewrite H in Ez. discriminate. }
  apply Nat.eqb_eq in Ez.
  pose proof (switchLayerStyle_unchanged a a1 rs E1 Es Ez) as ->.
  destruct (snd (isSymbolInstance a)) as [[|]|msg];
    try (now intros [= <- _]).
  destruct (switchSymbolMode doc t a) as [a3 ry] eqn:Ey.
  intros [= <- <-] H. cbn in H.
  apply (switchSymbolMode_unchanged a a3 ry E2 Ey). lia.
Qed.

(** The loop never lowers the count of switches; when it ends with none, it
    has changed no layer, as soon as the processing of one layer changes
    nothing when it switches nothing. *)
Lemma process_all_keeps (process : Layer -> Layer * Completion Result)
  (ls : list Layer) :
  Forall (fun l => forall l' c, process l = (l', c) ->
            match c with
            | Normal r => switched r = 0 -> l' = l
            | Throw _ => l' = l
            end) ls ->
  forall (acc : Result) (ls' : list Layer) (sum : Result) (c : Completion unit),
    process_all process ls acc = (ls', sum, c) ->
    switched acc <= switched sum /\ (switched sum = 0 -> ls' = ls).
Proof.
  induction 1 as [|l ls Hl _ IH]; intros acc ls' sum c.
  - cbn. intros [= <- <- _]. auto.
  - cbn [process_all]. destruct (process l) as [l1 [r|msg]] eqn:El.
    + destruct (process_all process ls (result_add acc r))
        as [[rest' sum'] c'] eqn:Ep.
      intros [= <- <- <-].
      destruct (IH _ _ _ _ Ep) as (Hle & Hkeep). cbn in Hle.
      split; [lia|]. intros Hz.
      rewrite (Hl _ _ eq_refl) by lia. now rewrite Hkeep.
    + intros [= <- <- _]. split; [lia|]. intros _.
      now rewrite (Hl _ _ eq_refl).
Qed.

Lemma everywhere_children (p : LayerAttrs -> bool) (a : LayerAttrs)
  (children : list Layer) :
  everywhere p (Node a (Some children)) = true ->
  p a = true /\ Forall (fun l => everywhere p l = true) children.
Proof.
  cbn [everywhere]. intros H. apply andb_prop in H as (Ha & Hc).
  split; [exact Ha|]. apply Forall_forall. intros l Hin.
  rewrite forallb_forall in Hc. now apply Hc.
Qed.

Lemma processLayer_keeps (l : Layer) :
  everywhere setters_answer l = true ->
  forall l' c, processLayer doc t l = (l', c) ->
    match c with
    | Normal r => switched r = 0 -> l' = l
    | Throw _ => l' = l
    end.
Proof.
  induction l as [a | a children IH] using Layer_induction;
    intros Hall l' c E.
  - destruct c as [r|msg];
      [|exact (processLayer_throw_unchanged doc t _ _ _ E)].
    apply processLayer_cases in E
      as [(m & _ & _ & [=]) | (_ & a' & own & Ep & [H | [H | H]])].
    + destruct H as (_ & -> & [= ->]). intros Hz.
      now rewrite (processCurrentLayer_unchanged a a' own Hall Ep Hz).
    + now destruct H as (cs & m & [=] & _).
    + now destruct H as (cs & cs' & sum & cc & [=] & _).
  - destruct c as [r|msg];
      [|exact (processLayer_throw_unchanged doc t _ _ _ E)].
    apply everywhere_children in Hall as (Ha & Hch).
    apply processLayer_cases in E
      as [(m & _ & _ & [=]) | (_ & a' & own & Ep & [H | [H | H]])].
    + now destruct H as ([=] & _).
    + destruct H as (cs & m & [= <-] & _ & -> & [= ->]). intros Hz.
      now rewrite (processCurrentLayer_unchanged a a' own Ha Ep Hz).
    + destruct H as (cs & cs' & sum & cc & [= <-] & _ & Hp & -> & [= ->]).
      intros Hz.
      assert (Hstep : Forall (fun l => forall l' c,
                processLayer doc t l = (l', c) ->
                match c with
                | Normal r => switched r = 0 -> l' = l
                | Throw _ => l' = l
                end) children).
      { rewrite Forall_forall in *. intros l Hin. apply IH; auto. }
      destruct (process_all_keeps _ _ Hstep _ _ _ _ Hp) as (Hle & Hkeep).
      rewrite Hkeep by exact Hz.
      rewrite (processCurrentLayer_unchanged a a' own Ha Ep) by lia.
      reflexivity.
Qed.

(** X10.  A walk that counts no switch has changed nothing: when the two
    assignments that come second in a switch ([style = ...] after
    [sharedStyle = ...], [setOverrides] after [changeInstanceToSymbol]) do not
    throw on any layer of the given trees, and the loop of [switchMode] or
    [switchEntirePage] over them ends -- by itself or on an error -- with a
    sum of zero switches, the trees it leaves are the trees it was given. *)
Theorem nothing_switched_nothing_changed (ls ls' : list Layer) (sum : Result)
  (c : Completion unit) :
  forallb (everywhere setters_answer) ls = true ->
  process_all (processLayer doc t) ls zero = (ls', sum, c) ->
  switched sum = 0 -> ls' = ls.
Proof.
  intros Hall Hp Hz.
  assert (Hstep : Forall (fun l => forall l' c,
            processLayer doc t l = (l', c) ->
            match c with
            | Normal r => switched r = 0 -> l' = l
            | Throw _ => l' = l
            end) ls).
  { apply Forall_forall. intros l Hin. apply processLayer_keeps.
    rewrite forallb_forall in Hall. now apply Hall. }
  now apply (process_all_keeps _ _ Hstep _ _ _ _ Hp).
Qed.

(** X11.  The hypothesis of X10 is needed: when [style = ...] throws after
    [sharedStyle = ...] has been assigned, the [catch] block of
    [switchLayerStyle] counts the layer as skipped, and the layer keeps the
    new shared style with its old style properties. *)
Theorem failed_style_assignment_is_half_applied (a : LayerAttrs)
  (cur ts : SharedStyle) (m : Mode) (msg : string) :
  faults a CClass = None -> faults a CName = None ->
  faults a CFromNative = None -> faults a CDocumentData = None ->
  faults a CSetSharedStyle = None -> faults a CSetStyle = Some msg ->
  sharedStyle a = Some cur ->
  detectCurrentMode (style_name cur) = Some m -> m <> t ->
  findStyle (catalog_of doc a) (buildTargetName (style_name cur) (mode_str t))
    = Some ts ->
  exists a',
    switchLayerStyle doc t a = (a', one_skipped) /\
    sharedStyle a' = Some ts /\ style a' = style a.
Proof.
  intros Ec En Ew Ed E1 E2 Es Em Hm Ef.
  unfold switchLayerStyle, switchLayerStyle_body.
  rewrite (call_answers _ _ _ Ec), read_bind. cbv beta.
  rewrite (call_answers _ _ _ En), (call_answers _ _ _ Ew),
    (call_answers _ _ _ Ed).
  assert (Hm' : Mode_eqb m t = false).
  { destruct m, t; try reflexivity; now elim Hm. }
  assert (H : forall catalog,
    findStyle catalog (buildTargetName (style_name cur) (mode_str t)) = Some ts ->
    exists a', caught (switchAppliedStyle t catalog a) = (a', one_skipped) /\
               sharedStyle a' = Some ts /\ style a' = style a).
  { intros catalog Hf. unfold switchAppliedStyle.
    rewrite read_bind, Es. cbv beta iota zeta. rewrite Em, Hm'. cbn [negb].
    rewrite Hf. rewrite (call_answers _ _ _ E1), set_sharedStyle_bind. cbv beta.
    rewrite (call_throws _ _ _ msg) by exact E2.
    cbn [caught]. eexists. split; [reflexivity|]. now cbn. }
  unfold catalog_of in Ef.
  destruct (String.eqb (class_name a) "MSTextLayer"); now apply H.
Qed.

End NothingSwitched.

Lemma nothing_switched_nothing_changed_witness :
  process_all (processLayer library DARK) dark_page zero
    = (fst (fst (process_all (processLayer library DARK) dark_page zero)),
       mkResult 0 4, Normal tt)
  /\ fst (fst (process_all (processLayer library DARK) dark_page zero))
     = dark_page.
Proof.
  split; [reflexivity|].
  apply (nothing_switched_nothing_changed library DARK dark_page _
           (mkResult 0 4) (Normal tt));
    reflexivity.
Defined.

Lemma failed_style_assignment_is_half_applied_witness :
  exists a',
    switchLayerStyle library DARK broken_style_setter = (a', one_skipped) /\
    sharedStyle a' = Some text_dark /\ style a' = style broken_style_setter.
Proof.
  apply (failed_style_assignment_is_half_applied library DARK
           broken_style_setter text_light text_dark LIGHT "style failed");
    try reflexivity.
  discriminate.
Defined.

(* ================================================================== *)
(** * How many layers a walk counts *)

Section WalkTallies.

Variable doc : Document.
Variable t : Mode.

(** What [processCurrentLayer] counts on a layer whose name answers: at most
    one switch, at most two counts in all, and one count at least when the
    class answers too. *)
Lemma processCurrentLayer_counts (a : LayerAttrs) :
  faults a CName = None ->
  exists (a' : LayerAttrs) (r : Result),
    processCurrentLayer doc t a = (a', Normal r) /\
    switched r <= 1 /\ switched r + skipped r <= 2 /\
    (faults a CClass = None -> 1 <= switched r + skipped r).
Proof.
  intros En.
  destruct (faults a CClass) as [msg|] eqn:Ec.
  { rewrite (processCurrentLayer_class_fault doc t a msg En Ec).
    exists a, zero. cbn. repeat split; try lia. discriminate. }
  destruct (switchLayerStyle doc t a) as [a1 rs] eqn:Es.
  rewrite (processCurrentLayer_step doc t a a1 rs En Ec Es).
  pose proof (switchLayerStyle_outcome doc t a) as Ho. rewrite Es in Ho.
  destruct Ho as (Hrs & _). cbn [snd] in Hrs.
  destruct Hrs as [-> | ->]; cbn [switched one_switched one_skipped Nat.eqb].
  { exists a1, one_switched. cbn. repeat split; lia. }
  destruct (snd (isSymbolInstance a1)) as [[|]|msg].
  - pose proof (switchSymbolMode_outcome doc t a1) as Hy.
    destruct (switchSymbolMode doc t a1) as [a3 ry].
    destruct Hy as (Hry & _). cbn [snd] in Hry.
    exists a3, (result_add one_skipped ry). split; [reflexivity|].
    destruct Hry as [-> | [-> | ->]]; cbn; repeat split; lia.
  - exists a1, one_skipped. cbn. repeat split; lia.
  - exists a1, one_skipped. cbn. repeat split; lia.
Qed.

Lemma list_sum_cons (x : nat) (xs : list nat) :
  list_sum (x :: xs) = x + list_sum xs.
Proof. reflexivity. Qed.

Lemma process_all_at_most (process : Layer -> Layer * Completion Result)
  (ls : list Layer) :
  Forall (fun l => forall l' r, process l = (l', Normal r) ->
            switched r <= size l /\ switched r + skipped r <= 2 * size l) ls ->
  forall (acc : Result) (ls' : list Layer) (sum : Result) (c : Completion unit),
    process_all process ls acc = (ls', sum, c) ->
    switched sum <= switched acc + list_sum (map size ls) /\
    switched sum + skipped sum
      <= switched acc + skipped acc + 2 * list_sum (map size ls).
Proof.
  induction 1 as [|l ls Hl _ IH]; intros acc ls' sum c.
  - cbn. intros [= _ <- _]. lia.
  - cbn [process_all map]. rewrite list_sum_cons.
    destruct (process l) as [l1 [r|msg]] eqn:El.
    + destruct (process_all process ls (result_add acc r))
        as [[rest' sum'] c'] eqn:Ep.
      intros [= _ <- _].
      destruct (IH _ _ _ _ Ep) as (H1 & H2).
      cbn [result_add switched skipped] in H1, H2.
      destruct (Hl _ _ eq_refl) as (H3 & H4). lia.
    + intros [= _ <- _]. lia.
Qed.

Lemma processLayer_at_most (l l' : Layer) (r : Result) :
  processLayer doc t l = (l', Normal r) ->
  switched r <= size l /\ switched r + skipped r <= 2 * size l.
Proof.
  revert l' r.
  induction l as [a | a children IH] using Layer_induction; intros l' r E;
    apply processLayer_cases in E
      as [(m & _ & _ & [=]) | (En & a' & own & Ep & H)];
    destruct (processCurrentLayer_counts a En) as (a2 & r2 & E2 & H1 & H2 & _);
    rewrite Ep in E2; injection E2 as <- <-.
  - destruct H as [H | [H | H]].
    + destruct H as (_ & _ & [= ->]). cbn [size]. lia.
    + now destruct H as (cs & m & [=] & _).
    + now destruct H as (cs & cs' & sum & cc & [=] & _).
  - destruct H as [H | [H | H]].
    + now destruct H as ([=] & _).
    + destruct H as (cs & m & _ & _ & _ & [= ->]). cbn [size]. lia.
    + destruct H as (cs & cs' & sum & cc & [= <-] & _ & Hp & _ & [= ->]).
      destruct (process_all_at_most _ _ IH _ _ _ _ Hp) as (H3 & H4).
      cbn [size]. lia.
Qed.

Lemma process_all_at_least (process : Layer -> Layer * Completion Result)
  (ls : list Layer) :
  Forall (fun l => exists l' r, process l = (l', Normal r) /\
                     size l <= switched r + skipped r) ls ->
  forall acc : Result,
  exists (ls' : list Layer) (sum : Result),
    process_all process ls acc = (ls', sum, Normal tt) /\
    switched acc + skipped acc + list_sum (map size ls)
      <= switched sum + skipped sum.
Proof.
  induction 1 as [|l ls Hl _ IH]; intros acc.
  - exists [], acc. cbn. split; [reflexivity|lia].
  - destruct Hl as (l1 & r & El & Hr).
    destruct (IH (result_add acc r)) as (rest' & sum & Ep & Hs).
    exists (l1 :: rest'), sum.
    cbn [process_all map]. rewrite list_sum_cons, El, Ep.
    split; [reflexivity|]. cbn [result_add switched skipped] in Hs. lia.
Qed.

Lemma readable_faults (a : LayerAttrs) :
  readable a = true ->
  faults a CName = None /\ faults a CClass = None /\ faults a CLayers = None.
Proof.
  unfold readable, answers.
  destruct (faults a CName), (faults a CClass), (faults a CLayers);
    cbn; intros H; try discriminate; auto.
Qed.

Lemma processLayer_at_least (l : Layer) :
  everywhere readable l = true ->
  exists l' r, processLayer doc t l = (l', Normal r) /\
               size l <= switched r + skipped r.
Proof.
  induction l as [a | a children IH] using Layer_induction; intros Hall.
  - cbn [everywhere] in Hall.
    apply readable_faults in Hall as (En & Ec & _).
    destruct (processLayer doc t (Node a None)) as [l' c] eqn:E.
    apply processLayer_cases in E
      as [(m & Em & _) | (_ & a' & own & Ep & H)]; [congruence|].
    destruct (processCurrentLayer_counts a En) as (a2 & r2 & E2 & _ & _ & H3).
    rewrite Ep in E2. injection E2 as <- <-.
    destruct H as [H | [H | H]].
    + destruct H as (_ & -> & ->). exists (Node a' None), own.
      split; [reflexivity|]. cbn [size]. auto.
    + now destruct H as (cs & m & [=] & _).
    + now destruct H as (cs & cs' & sum & cc & [=] & _).
  - apply everywhere_children in Hall as (Ha & Hch).
    apply readable_faults in Ha as (En & Ec & El).
    destruct (processLayer doc t (Node a (Some children))) as [l' c] eqn:E.
    apply processLayer_cases in E
      as [(m & Em & _) | (_ & a' & own & Ep & H)]; [congruence|].
    destruct (processCurrentLayer_counts a En) as (a2 & r2 & E2 & _ & _ & H3).
    rewrite Ep in E2. injection E2 as <- <-.
    destruct H as [H | [H | H]].
    + now destruct H as ([=] & _).
    + destruct H as (cs & m & _ & Hf & _). congruence.
    + destruct H as (cs & cs' & sum & cc & [= <-] & _ & Hp & -> & ->).
      assert (Hstep : Forall (fun l => exists l' r,
                processLayer doc t l = (l', Normal r) /\
                size l <= switched r + skipped r) children).
      { rewrite Forall_forall in *. intros l Hin. apply IH; auto. }
      destruct (process_all_at_least _ _ Hstep own) as (ls' & sum' & Ep' & Hs).
      rewrite Hp in Ep'. injection Ep' as <- <- ->.
      exists (Node a' (Some cs')), sum. split; [reflexivity|].
      cbn [size]. specialize (H3 Ec). lia.
Qed.

(** X12.  The loop of [switchMode] and [switchEntirePage] never counts more
    switches than there are layers in the trees it is given, and never more
    than two counts per layer in all, whether it ends by itself or on an
    error. *)
Theorem tally_at_most_two_per_layer (ls ls' : list Layer) (sum : Result)
  (c : Completion unit) :
  process_all (processLayer doc t) ls zero = (ls', sum, c) ->
  switched sum <= list_sum (map size ls) /\
  switched sum + skipped sum <= 2 * list_sum (map size ls).
Proof.
  intros Hp.
  assert (Hstep : Forall (fun l => forall l' r,
            processLayer doc t l = (l', Normal r) ->
            switched r <= size l /\ switched r + skipped r <= 2 * size l) ls).
  { apply Forall_forall. intros l _ l' r. apply processLayer_at_most. }
  destruct (process_all_at_most _ _ Hstep _ _ _ _ Hp) as (H1 & H2).
  cbn in H1, H2. lia.
Qed.

(** X13.  When [name()], [class()] and [layers()] answer on every layer of
    the given trees, the loop ends by itself and every layer is counted at
    least once, whatever else throws: the two counters together are at least
    the number of layers. *)
Theorem readable_layers_are_all_counted (ls : list Layer) :
  forallb (everywhere readable) ls = true ->
  exists (ls' : list Layer) (sum : Result),
    process_all (processLayer doc t) ls zero = (ls', sum, Normal tt) /\
    list_sum (map size ls) <= switched sum + skipped sum.
Proof.
  intros Hall.
  assert (Hstep : Forall (fun l => exists l' r,
            processLayer doc t l = (l', Normal r) /\
            size l <= switched r + skipped r) ls).
  { apply Forall_forall. intros l Hin. apply processLayer_at_least.
    rewrite forallb_forall in Hall. now apply Hall. }
  destruct (process_all_at_least _ _ Hstep zero) as (ls' & sum & Ep & Hs).
  exists ls', sum. split; [exact Ep|]. cbn in Hs. lia.
Qed.

End WalkTallies.

Lemma tally_at_most_two_per_layer_witness :
  switched (mkResult 0 4) <= list_sum (map size dark_page) /\
  switched (mkResult 0 4) + skipped (mkResult 0 4)
    <= 2 * list_sum (map size dark_page).
Proof.
  apply (tally_at_most_two_per_layer library DARK dark_page dark_page
           (mkResult 0 4) (Normal tt)).
  reflexivity.
Defined.

Lemma readable_layers_are_all_counted_witness :
  exists (ls' : list Layer) (sum : Result),
    process_all (processLayer library DARK) (broken_style_setter_page) zero
      = (ls', sum, Normal tt) /\
    list_sum (map size broken_style_setter_page)
      <= switched sum + skipped sum.
Proof.
  apply (readable_layers_are_all_counted library DARK broken_style_setter_page).
  reflexivity.
Defined.

(* ================================================================== *)
(** * There and back *)

Section RoundTrips.

Variable doc : Document.

Local Arguments detectCurrentMode : simpl never.
Local Arguments buildTargetName : simpl never.
Local Arguments findStyle : simpl never.
Local Arguments findSymbolByName : simpl never.
Local Arguments String.eqb : simpl never.
Local Arguments includes : simpl never.

(** Closes a case in which the first switch did not take place. *)
Ltac no_switch :=
  cbn [caught ret]; unfold one_skipped, one_switched, zero; now intros [=].

Lemma buildTargetName_overwrites (name t1 t2 : string) :
  slash_free t1 = true ->
  buildTargetName (buildTargetName name t1) t2 = buildTargetName name t2.
Proof.
  intros Ht. pose proof (split_segments_slash_free name) as Hs.
  destruct (split NAMING_SEPARATOR name) as [|p0 [|p1 rest]] eqn:E.
  - now apply split_not_nil in E.
  - rewrite (buildTargetName_short name t1) by (rewrite E; simpl; lia).
    reflexivity.
  - rewrite (buildTargetName_segments _ t1 _ _ _ E).
    rewrite (buildTargetName_segments _ t2 _ _ _ E).
    apply buildTargetName_segments with (p1 := t1). apply split_join.
    cbn [forallb] in *. apply Bool.andb_true_iff in Hs as [H0 Hs].
    apply Bool.andb_true_iff in Hs as [_ Hr]. now rewrite H0, Ht, Hr.
Qed.

Lemma Mode_eqb_sym (m1 m2 : Mode) : Mode_eqb m1 m2 = Mode_eqb m2 m1.
Proof. now destruct m1, m2. Qed.

Lemma switchAppliedStyle_back (catalog : list SharedStyle) (t m : Mode)
  (a a1 : LayerAttrs) (cur : SharedStyle) :
  sharedStyle a = Some cur -> style a = style_props cur ->
  detectCurrentMode (style_name cur) = Some m ->
  buildTargetName (style_name cur) (mode_str m) = style_name cur ->
  findStyle catalog (style_name cur) = Some cur ->
  caught (switchAppliedStyle t catalog a) = (a1, one_switched) ->
  caught (switchAppliedStyle m catalog a1) = (a, one_switched).
Proof.
  intros Hs Hst Hd Hb Hf.
  unfold switchAppliedStyle at 1. rewrite read_bind, Hs. cbv beta iota zeta.
  rewrite Hd.
  destruct (Mode_eqb m t) eqn:Em; cbn [negb]; [no_switch|].
  destruct (findStyle catalog (buildTargetName (style_name cur) (mode_str t)))
    as [ts|] eqn:Ef; [|no_switch].
  destruct (faults a CSetSharedStyle) as [msg|] eqn:E1.
  { rewrite (call_throws _ _ _ _ E1). no_switch. }
  rewrite (call_answers _ _ _ E1), set_sharedStyle_bind. cbv beta.
  destruct (faults a CSetStyle) as [msg|] eqn:E2.
  { rewrite (call_throws _ _ _ msg) by exact E2. no_switch. }
  rewrite call_answers by exact E2. rewrite set_style_bind. cbv beta.
  cbn [caught ret]. intros [= <-].
  unfold switchAppliedStyle. rewrite read_bind.
  cbn [sharedStyle]. cbv beta iota zeta.
  rewrite (findStyle_name _ _ _ Ef).
  rewrite (detect_built _ t (detected_has_two_segments _ _ Hd)).
  rewrite Mode_eqb_sym, Em. cbn [negb].
  rewrite buildTargetName_overwrites by apply mode_str_slash_free.
  rewrite Hb, Hf.
  rewrite call_answers by exact E1. rewrite set_sharedStyle_bind. cbv beta.
  rewrite call_answers by exact E2. rewrite set_style_bind. cbv beta.
  cbn [caught ret]. f_equal.
  destruct a. cbn in *. now subst.
Qed.

(** X14.  A style switch can be undone: when the layer's shared style is the
    first style of its catalog with that name, its name carries the mode as
    [buildTargetName] writes it, and the layer has the style's own properties,
    then switching to the other mode and back to the first gives the layer
    back as it was. *)
Theorem style_switch_round_trip (t m : Mode) (a a1 : LayerAttrs)
  (cur : SharedStyle) :
  sharedStyle a = Some cur -> style a = style_props cur ->
  detectCurrentMode (style_name cur) = Some m ->
  buildTargetName (style_name cur) (mode_str m) = style_name cur ->
  findStyle (catalog_of doc a) (style_name cur) = Some cur ->
  switchLayerStyle doc t a = (a1, one_switched) ->
  switchLayerStyle doc m a1 = (a, one_switched).
Proof.
  intros Hs Hst Hd Hb Hf H.
  pose proof (switchLayerStyle_outcome doc t a) as Ho. rewrite H in Ho.
  destruct Ho as (_ & (_ & Hc & Hfa) & _). cbn [fst] in Hc, Hfa.
  revert H. unfold switchLayerStyle, switchLayerStyle_body.
  destruct (faults a CClass) as [msg|] eqn:Ec.
  { rewrite (call_throws _ _ _ _ Ec). no_switch. }
  rewrite (call_answers _ _ _ Ec), read_bind. cbv beta.
  rewrite (call_answers _ _ a1) by (rewrite Hfa; exact Ec).
  rewrite read_bind. cbv beta.
  destruct (faults a CName) as [msg|] eqn:En.
  { rewrite (call_throws _ _ _ _ En). no_switch. }
  rewrite (call_answers _ _ _ En).
  rewrite (call_answers _ _ a1) by (rewrite Hfa; exact En).
  destruct (faults a CFromNative) as [msg|] eqn:Ew.
  { rewrite (call_throws _ _ _ _ Ew). no_switch. }
  rewrite (call_answers _ _ _ Ew).
  rewrite (call_answers _ _ a1) by (rewrite Hfa; exact Ew).
  destruct (faults a CDocumentData) as [msg|] eqn:Ed.
  { rewrite (call_throws _ _ _ _ Ed). no_switch. }
  rewrite (call_answers _ _ _ Ed).
  rewrite (call_answers _ _ a1) by (rewrite Hfa; exact Ed).
  rewrite Hc. unfold catalog_of in Hf.
  destruct (String.eqb (class_name a) "MSTextLayer");
    now apply switchAppliedStyle_back with (cur := cur).
Qed.

(** X15.  A symbol swap can be undone: when the instance's master is the
    first master of the document with that name, and its name carries a mode
    as [buildTargetName] writes it, then swapping to the other mode and back
    gives the instance back as it was, overrides included. *)
Theorem symbol_switch_round_trip (t m : Mode) (a a1 : LayerAttrs)
  (cur : SymbolMaster) :
  symbolMaster a = Some cur ->
  detectCurrentMode (symbol_name cur) = Some m ->
  buildTargetName (symbol_name cur) (mode_str m) = symbol_name cur ->
  findSymbolByName doc (symbol_name cur) = Some cur ->
  switchSymbolMode doc t a = (a1, one_switched) ->
  switchSymbolMode doc m a1 = (a, one_switched).
Proof.
  intros Hs Hd Hb Hf.
  unfold switchSymbolMode at 1. unfold switchSymbolMode_body.
  destruct (faults a CSymbolMaster) as [msg|] eqn:Em.
  { rewrite (call_throws _ _ _ _ Em). no_switch. }
  rewrite (call_answers _ _ _ Em), read_bind, Hs. cbv beta iota zeta.
  rewrite Hd. cbn [is_mode].
  destruct (Mode_eqb m t) eqn:Emt; [no_switch|].
  destruct (faults a CDocumentData) as [msg|] eqn:Ed.
  { rewrite (call_throws _ _ _ _ Ed). no_switch. }
  rewrite (call_answers _ _ _ Ed).
  destruct (findSymbolByName doc (buildTargetName (symbol_name cur) (mode_str t)))
    as [ts|] eqn:Eft; [|no_switch].
  destruct (faults a COverrides) as [msg|] eqn:Eo.
  { rewrite (call_throws _ _ _ _ Eo). no_switch. }
  rewrite (call_answers _ _ _ Eo), read_bind. cbv beta.
  destruct (faults a CChangeInstance) as [msg|] eqn:Eg.
  { rewrite (call_throws _ _ _ _ Eg). no_switch. }
  rewrite (call_answers _ _ _ Eg), set_symbolMaster_bind. cbv beta.
  assert (Hts : is_mode (detectCurrentMode (symbol_name ts)) m = false).
  { rewrite (findSymbolByName_name doc _ _ Eft).
    rewrite (detect_built _ t (detected_has_two_segments _ _ Hd)).
    cbn [is_mode]. now rewrite Mode_eqb_sym. }
  assert (Hfind : findSymbolByName doc
                    (buildTargetName (symbol_name ts) (mode_str m)) = Some cur).
  { rewrite (findSymbolByName_name doc _ _ Eft).
    rewrite buildTargetName_overwrites by apply mode_str_slash_free.
    now rewrite Hb. }
  destruct (overrides a) as [o|] eqn:Eov; cbv iota.
  - rewrite bind_bind.
    destruct (faults a CSetOverrides) as [msg|] eqn:Es'.
    { rewrite (call_throws _ _ _ msg) by exact Es'. no_switch. }
    rewrite call_answers by exact Es'. cbv beta.
    rewrite set_overrides_bind. cbv beta. cbn [caught ret]. intros [= <-].
    unfold switchSymbolMode, switchSymbolMode_body.
    rewrite call_answers by exact Em. rewrite read_bind.
    cbn [symbolMaster]. cbv beta iota zeta. rewrite Hts.
    rewrite call_answers by exact Ed. rewrite Hfind.
    rewrite call_answers by exact Eo. rewrite read_bind. cbv beta.
    rewrite call_answers by exact Eg. rewrite set_symbolMaster_bind.
    cbv beta. cbn [overrides]. cbv iota.
    rewrite bind_bind. rewrite call_answers by exact Es'. cbv beta.
    rewrite set_overrides_bind. cbv beta. cbn [caught ret]. f_equal.
    destruct a. cbn in *. now subst.
  - rewrite ret_bind. cbn [caught ret]. intros [= <-].
    unfold switchSymbolMode, switchSymbolMode_body.
    rewrite call_answers by exact Em. rewrite read_bind.
    cbn [symbolMaster]. cbv beta iota zeta. rewrite Hts.
    rewrite call_answers by exact Ed. rewrite Hfind.
    rewrite call_answers by exact Eo. rewrite read_bind. cbv beta.
    rewrite call_answers by exact Eg. rewrite set_symbolMaster_bind.
    cbv beta. cbn [overrides]. rewrite Eov. cbv iota.
    rewrite ret_bind. cbn [caught ret]. f_equal.
    destruct a. cbn in *. now subst.
Qed.

End RoundTrips.

Lemma symbol_switch_round_trip_witness :
  switchSymbolMode library LIGHT dark_button = (light_button, one_switched).
Proof.
  apply (symbol_switch_round_trip library DARK LIGHT light_button dark_button
           button_light);
    reflexivity.
Defined.

Lemma style_switch_round_trip_witness :
  switchLayerStyle library LIGHT dark_text = (light_text, one_switched).
Proof.
  apply (style_switch_round_trip library DARK LIGHT light_text dark_text
           text_light);
    reflexivity.
Defined.

(* ================================================================== *)
(** * The page commands *)

(** X16.  [switchEntirePage] walks the root layers of the page as
    [switchMode] walks a selection of the same layers: it leaves the same
    trees and reports the same two counts, after the words "Page switched to"
    instead of "Switched to", or the same error.  On a page without layers
    the two differ: [switchMode] asks for a selection, [switchEntirePage]
    reports "0 changed, 0 skipped". *)
Theorem page_command_walks_like_the_selection_command (ctx : PageContext)
  (t : Mode) :
  let page := switchEntirePage ctx t in
  let sel :=
    switchMode
      (mkContext (page_layers ctx) (page_document ctx) (page_shown ctx)) t in
  page_document page = page_document ctx /\
  match page_layers ctx with
  | [] =>
      page_layers page = [] /\
      page_shown page = page_report t zero :: page_shown ctx /\
      shown sel = "Please select layers to switch modes"%string :: page_shown ctx
  | _ :: _ =>
      page_layers page = selection sel /\
      ((exists r : Result,
          page_shown page = page_report t r :: page_shown ctx /\
          shown sel = report t r :: page_shown ctx)
       \/ (exists msg : string,
             page_shown page = ("Error: " ++ msg)%string :: page_shown ctx /\
             shown sel = ("Error: " ++ msg)%string :: page_shown ctx))
  end.
Proof.
  unfold switchEntirePage, switchMode. cbn [selection document shown].
  destruct (page_layers ctx) as [|l ls].
  - cbn. auto.
  - cbn [List.length Nat.eqb].
    destruct (process_all (processLayer (page_document ctx) t) (l :: ls) zero)
      as [[ls' sum] [u|msg]]; cbn.
    + split; [reflexivity|]. split; [reflexivity|]. left. now exists sum.
    + split; [reflexivity|]. split; [reflexivity|]. right. now exists msg.
Qed.

(* ================================================================== *)
(** * Where the toggle finds a mode *)

Section FindMode.

Variable doc : Document.

Local Arguments detectCurrentMode : simpl never.
Local Arguments String.eqb : simpl never.
Local Arguments includes : simpl never.
Local Arguments sharedStyleWithID : simpl never.

Lemma isSymbolInstance_reads (a a' : LayerAttrs) (c : Completion bool) :
  isSymbolInstance a = (a', c) -> a' = a.
Proof.
  intros H. pose proof (isSymbolInstance_state a) as Hs.
  rewrite H in Hs. exact Hs.
Qed.

Lemma findMode_symbol_sound (a a' : LayerAttrs) (m : Mode) :
  (isSym <- isSymbolInstance ;;
   if isSym then
     call CSymbolMaster ;;;
     master <- read symbolMaster ;;
     ret match master with
         | Some sm => detectCurrentMode (symbol_name sm)
         | None => None
         end
   else ret None) a = (a', Normal (Some m)) ->
  exists sm : SymbolMaster,
    symbolMaster a = Some sm /\ detectCurrentMode (symbol_name sm) = Some m.
Proof.
  unfold bind at 1.
  destruct (isSymbolInstance a) as [a2 [[|]|msg]] eqn:Ey; try discriminate.
  apply isSymbolInstance_reads in Ey as ->.
  destruct (faults a CSymbolMaster) as [msg|] eqn:Em.
  { now rewrite (call_throws _ _ _ _ Em). }
  rewrite (call_answers _ _ _ Em), read_bind. cbv beta.
  destruct (symbolMaster a) as [sm|] eqn:Esm; [|discriminate].
  intros [= _ E]. now exists sm.
Qed.

Lemma findMode_own_sound (a a' : LayerAttrs) (m : Mode) :
  findMode_own doc a = (a', Normal (Some m)) ->
  exists name : string,
    mode_source doc a name /\ detectCurrentMode name = Some m.
Proof.
  assert (Hsym : forall a0, 
    (isSym <- isSymbolInstance ;;
     if isSym then
       call CSymbolMaster ;;;
       master <- read symbolMaster ;;
       ret match master with
           | Some sm => detectCurrentMode (symbol_name sm)
           | None => None
           end
     else ret None) a = (a0, Normal (Some m)) ->
    exists name : string,
      mode_source doc a name /\ detectCurrentMode name = Some m).
  { intros a0 H. apply findMode_symbol_sound in H as (sm & Hsm & E).
    exists (symbol_name sm). split; [|exact E]. right; right. now exists sm. }
  unfold findMode_own.
  destruct (faults a CClass) as [msg|] eqn:Ec.
  { now rewrite (call_throws _ _ _ _ Ec). }
  rewrite (call_answers _ _ _ Ec), !read_bind. cbv beta zeta.
  destruct (sharedStyle a) as [s|] eqn:Es.
  2:{ destruct (String.eqb (class_name a) "MSTextLayer");
        rewrite ret_bind; apply Hsym. }
  assert (Hlayer :
    (layerMode <-
       (call CDocumentData ;;;
        ret match sharedStyleWithID (sharedLayerStyles doc) (style_id s) with
            | Some currentStyle => detectCurrentMode (style_name currentStyle)
            | None => None
            end) ;;
     match layerMode with
     | Some mode => ret (Some mode)
     | None =>
         isSym <- isSymbolInstance ;;
         if isSym then
           call CSymbolMaster ;;;
           master <- read symbolMaster ;;
           ret match master with
               | Some sm => detectCurrentMode (symbol_name sm)
               | None => None
               end
         else ret None
     end) a = (a', Normal (Some m)) ->
    exists name : string,
      mode_source doc a name /\ detectCurrentMode name = Some m).
  { rewrite bind_bind.
    destruct (faults a CDocumentData) as [msg|] eqn:Edd.
    { now rewrite (call_throws _ _ _ _ Edd). }
    rewrite (call_answers _ _ _ Edd), ret_bind.
    destruct (sharedStyleWithID (sharedLayerStyles doc) (style_id s))
      as [cs|] eqn:Ei; [|apply Hsym].
    destruct (detectCurrentMode (style_name cs)) as [mode|] eqn:Ed';
      [|apply Hsym].
    intros [= _ <-]. exists (style_name cs). split; [|exact Ed'].
    right; left. now exists s, cs. }
  destruct (String.eqb_spec (class_name a) "MSTextLayer") as [Hc|Hc];
    [|exact Hlayer].
  destruct (detectCurrentMode (style_name s)) as [mode|] eqn:Ed;
    [|exact Hlayer].
  intros [= _ <-]. exists (style_name s). split; [|exact Ed].
  left. now exists s.
Qed.

Lemma first_mode_found (find_mode : Layer -> option Mode) (ls : list Layer)
  (m : Mode) :
  first_mode find_mode ls = Some m ->
  exists l, In l ls /\ find_mode l = Some m.
Proof.
  induction ls as [|l ls IH]; cbn [first_mode]; [discriminate|].
  destruct (find_mode l) as [mode|] eqn:E.
  - intros [= <-]. exists l. split; [now left | exact E].
  - intros H. destruct (IH H) as (l' & Hin & E'). exists l'.
    split; [now right | exact E'].
Qed.

Lemma findModeInLayer_sound (l : Layer) (m : Mode) :
  findModeInLayer doc l = Some m ->
  exists (a : LayerAttrs) (name : string),
    In a (nodes l) /\ mode_source doc a name /\
    detectCurrentMode name = Some m.
Proof.
  induction l as [a | a children IH] using Layer_induction;
    cbn [findModeInLayer nodes];
    destruct (findMode_own doc a) as [a' [[mode|]|msg]] eqn:E;
    try discriminate.
  - intros [= <-]. apply findMode_own_sound in E as (name & Hs & Hd).
    exists a, name. split; [now left | auto].
  - intros [= <-]. apply findMode_own_sound in E as (name & Hs & Hd).
    exists a, name. split; [now left | auto].
  - destruct (call CLayers a) as [a2 [u|msg]]; [|discriminate].
    intros H. apply first_mode_found in H as (l & Hin & Hl).
    rewrite Forall_forall in IH.
    destruct (IH l Hin Hl) as (b & name & Hb & Hs & Hd).
    exists b, name. split; [|auto]. right.
    apply in_flat_map. now exists l.
Qed.

End FindMode.

(** X17.  The mode [toggleMode] detects in a selection is never made up: it
    is the mode decoded from the name of a resource of some layer of the
    selection -- the text style of a text layer, the layer style with the
    object ID of the layer's style, or the symbol master. *)
Theorem detected_mode_has_a_source (doc : Document) (ls : list Layer)
  (m : Mode) :
  first_mode (findModeInLayer doc) ls = Some m ->
  exists (l : Layer) (a : LayerAttrs) (name : string),
    In l ls /\ In a (nodes l) /\ mode_source doc a name /\
    detectCurrentMode name = Some m.
Proof.
  intros H. apply first_mode_found in H as (l & Hin & Hl).
  apply findModeInLayer_sound in Hl as (a & name & Ha & Hs & Hd).
  now exists l, a, name.
Qed.

Lemma detected_mode_has_a_source_witness :
  exists (l : Layer) (a : LayerAttrs) (name : string),
    In l (selection mixed_selection) /\ In a (nodes l) /\
    mode_source library a name /\ detectCurrentMode name = Some LIGHT.
Proof.
  apply (detected_mode_has_a_source library (selection mixed_selection) LIGHT).
  reflexivity.
Defined.

(* ================================================================== *)
(** * The debug script *)

Section DebugScript.

Local Open Scope string_scope.
Local Abbreviation sep := NAMING_SEPARATOR_DEBUG.
Local Abbreviation slash := "/"%char.
Local Abbreviation space := " "%char.
Local Arguments Ascii.eqb : simpl never.

Lemma split_scan_not_nil (s0 : string) (k : nat) (s : string) :
  split_scan s0 k s <> [].
Proof.
  revert k. induction s as [|c s IH]; intros k; cbn [split_scan].
  - discriminate.
  - destruct k as [|k]; [|apply IH].
    destruct (startsWith s0 (String c s)); [discriminate|].
    destruct (split_scan s0 0 s); discriminate.
Qed.

Lemma join_debug_cons2 (p q : string) (ps : list string) :
  join sep (p :: q :: ps) = p ++ " / " ++ join sep (q :: ps).
Proof. reflexivity. Qed.

Lemma join_debug_push_head (c : ascii) (ps : list string) :
  ps <> [] -> join sep (push_head c ps) = String c (join sep ps).
Proof.
  destruct ps as [|p [|q ps]]; [congruence| |]; reflexivity.
Qed.

(** A string that starts with the separator. *)
Lemma startsWith_sep (s : string) :
  startsWith sep s = true -> exists r, s = " / " ++ r.
Proof.
  destruct s as [|a [|b [|c r]]]; cbn [startsWith NAMING_SEPARATOR_DEBUG];
    try (rewrite ?Bool.andb_false_r; discriminate).
  intros H. apply andb_prop in H as (Ha & H).
  apply andb_prop in H as (Hb & H). apply andb_prop in H as (Hc & _).
  apply Ascii.eqb_eq in Ha, Hb, Hc. subst. now exists r.
Qed.

Lemma split_debug_sep (r : string) :
  split sep (" / " ++ r) = "" :: split sep r.
Proof. reflexivity. Qed.

Lemma split_debug_other (c : ascii) (s : string) :
  startsWith sep (String c s) = false ->
  split sep (String c s) = push_head c (split sep s).
Proof.
  intros H. unfold split, NAMING_SEPARATOR_DEBUG in *.
  cbn [split_scan]. now rewrite H.
Qed.

(** Splitting and joining with the separator of the debug script gives the
    name back. *)
Lemma join_split_debug (s : string) : join sep (split sep s) = s.
Proof.
  assert (H : forall n s, String.length s <= n -> join sep (split sep s) = s).
  { clear s. induction n as [|n IH]; intros s Hn.
    - destruct s; [reflexivity | cbn in Hn; lia].
    - destruct s as [|c s]; [reflexivity|].
      destruct (startsWith sep (String c s)) eqn:E.
      + apply startsWith_sep in E as (r & E). rewrite E, split_debug_sep.
        pose proof (split_scan_not_nil " / " 0 r) as Hne.
        change (split_scan " / " 0 r) with (split sep r) in Hne.
        destruct (split sep r) as [|p ps] eqn:Er; [congruence|].
        rewrite join_debug_cons2, <- Er, IH; [reflexivity|].
        apply (f_equal String.length) in E. cbn in E, Hn. lia.
      + rewrite (split_debug_other _ _ E), join_debug_push_head.
        * rewrite IH; [reflexivity | cbn in Hn; lia].
        * apply (split_scan_not_nil " / " 0 s). }
  apply (H (String.length s)). lia.
Qed.

(** A component without slash ends where the separator begins. *)
Lemma split_debug_app (c r : string) :
  slash_free c = true ->
  split sep (c ++ " / " ++ r) = c :: split sep r.
Proof.
  induction c as [|x c IH]; intros Hc.
  - apply split_debug_sep.
  - rewrite slash_free_cons in Hc. apply andb_prop in Hc as (Hx & Hc).
    change (String x c ++ " / " ++ r) with (String x (c ++ " / " ++ r)).
    rewrite split_debug_other.
    + rewrite (IH Hc). reflexivity.
    + cbn [startsWith NAMING_SEPARATOR_DEBUG].
      destruct c as [|y c]; cbn [append startsWith].
      * change (Ascii.eqb slash space) with false.
        now rewrite Bool.andb_false_r.
      * rewrite slash_free_cons in Hc. apply andb_prop in Hc as (Hy & _).
        apply Bool.negb_true_iff in Hy. rewrite Hy.
        now rewrite Bool.andb_false_r.
Qed.

Lemma split_debug_plain (s : string) :
  includes sep s = false -> split sep s = [s].
Proof.
  induction s as [|c s IH]; [reflexivity|].
  cbn [includes]. intros H. apply Bool.orb_false_iff in H as (H1 & H2).
  rewrite (split_debug_other _ _ H1), (IH H2). reflexivity.
Qed.

(** X18.  On a name written [component / mode / variant], with spaces around
    the slashes, the debug script reads the mode and predicts the target
    [component / target / variant]; the plugin itself, which splits at the
    bare slash, builds [component /target/ variant] from the same name: the
    name the debug script prints is not the name the plugin looks up. *)
Theorem debug_codec_on_spaced_names (c m v t : string) (x : Mode) :
  slash_free c = true -> slash_free m = true ->
  trim (toLowerCase m) = mode_str x ->
  detectCurrentModeDebug (c ++ " / " ++ m ++ " / " ++ v) = Some x /\
  buildTargetNameDebug (c ++ " / " ++ m ++ " / " ++ v) t
    = c ++ " / " ++ t ++ " / " ++ v /\
  buildTargetName (c ++ " / " ++ m ++ " / " ++ v) t
    = c ++ " /" ++ t ++ "/ " ++ v.
Proof.
  intros Hc Hm Hx.
  assert (Hsplit : split sep (c ++ " / " ++ m ++ " / " ++ v)
                   = c :: m :: split sep v).
  { now rewrite !split_debug_app. }
  pose proof (split_scan_not_nil " / " 0 v) as Hne.
  change (split_scan " / " 0 v) with (split sep v) in Hne.
  destruct (split sep v) as [|p ps] eqn:Ev; [congruence|].
  split; [|split].
  - unfold detectCurrentModeDebug. cbv zeta. rewrite Hsplit.
    cbn [List.length Nat.leb nth]. rewrite Hx. now destruct x.
  - unfold buildTargetNameDebug. cbv zeta. rewrite Hsplit.
    cbn [List.length Nat.leb array_set].
    rewrite !join_debug_cons2, <- Ev, join_split_debug. reflexivity.
  - now apply build_legacy.
Qed.

(** X19.  A name without [" / "] says nothing to the debug script: it finds
    no mode in it and builds no target from it, also when the name follows
    the convention [component/mode/variant] that the plugin reads. *)
Theorem debug_script_ignores_unspaced_names (name t : string) :
  includes NAMING_SEPARATOR_DEBUG name = false ->
  detectCurrentModeDebug name = None /\ buildTargetNameDebug name t = name.
Proof.
  intros H. unfold detectCurrentModeDebug, buildTargetNameDebug. cbv zeta.
  rewrite (split_debug_plain name H). split; reflexivity.
Qed.

Lemma countLayerDebug_verdict (t : Mode) (a a' : LayerAttrs) (b : bool)
  (ch : option (list Layer)) :
  countLayerDebug t a = (a', Normal b) -> b = would_change_debug t (Node a ch).
Proof.
  unfold countLayerDebug, would_change_debug.
  destruct (faults a CName) as [msg|] eqn:En.
  { now rewrite (call_throws _ _ _ _ En). }
  rewrite (call_answers _ _ _ En).
  destruct (faults a CClass) as [msg|] eqn:Ec.
  { now rewrite (call_throws _ _ _ _ Ec). }
  rewrite (call_answers _ _ _ Ec), read_bind. cbv beta zeta.
  destruct (detectCurrentModeDebug (layer_name a)) as [m|]; cbn [is_mode].
  2:{ now intros [= _ <-]. }
  destruct (Mode_eqb m t); cbn [negb]; [now intros [= _ <-]|].
  rewrite read_bind. cbv beta.
  destruct (String.eqb (class_name a) "MSSymbolInstance").
  - destruct (faults a CSymbolMaster) as [msg|] eqn:Em.
    + now rewrite (call_throws _ _ _ _ Em).
    + rewrite (call_answers _ _ _ Em). now intros [= _ <-].
  - rewrite ret_bind. now intros [= _ <-].
Qed.

Lemma countAllDebug_counts (t : Mode) (ls : list Layer) :
  forall s k n j : nat,
    countAllDebug t ls s k = Normal (n, j) ->
    n = s + List.length (filter (would_change_debug t) ls) /\
    n + j = s + k + List.length ls.
Proof.
  induction ls as [|[a ch] ls IH]; intros s k n j.
  - cbn. intros [= <- <-]. lia.
  - cbn [countAllDebug filter].
    destruct (countLayerDebug t a) as [a' [b|msg]] eqn:E; [|discriminate].
    rewrite <- (countLayerDebug_verdict t a a' b ch E).
    destruct b; intros H; apply IH in H; cbn [List.length]; lia.
Qed.

(** X20.  The debug script changes nothing, counts each selected layer once
    and looks at nothing below it: on a selection that is not empty it only
    shows a message, either an error or the two counters, where "would
    change" is the number of selected layers whose own name shows, to the
    debug script, a mode other than the target, and the two counters add up
    to the size of the selection. *)
Theorem debug_tally_counts_the_selected_layers (ctx : Context) (t : Mode) :
  selection ctx <> [] ->
  (exists n j : nat,
     switchModeDebug ctx t =
       showMessage ctx
         ("DEBUG - " ++ modeText t ++ " Mode: "
            ++ show_nat n ++ " would change, " ++ show_nat j ++ " skipped") /\
     n = List.length (filter (would_change_debug t) (selection ctx)) /\
     n + j = List.length (selection ctx))
  \/ (exists msg : string,
        switchModeDebug ctx t = showMessage ctx ("Error: " ++ msg)).
Proof.
  intros Hne. unfold switchModeDebug.
  destruct (selection ctx) as [|l ls] eqn:Es; [congruence|].
  cbn [List.length Nat.eqb].
  destruct (countAllDebug t (l :: ls) 0 0) as [[n j]|msg] eqn:E.
  - left. exists n, j. split; [reflexivity|].
    apply countAllDebug_counts in E. cbn [List.length] in *. lia.
  - right. now exists msg.
Qed.

End DebugScript.

Lemma debug_codec_on_spaced_names_witness :
  detectCurrentModeDebug "Button / Light / Primary" = Some LIGHT /\
  buildTargetNameDebug "Button / Light / Primary" "dark"
    = "Button / dark / Primary"%string /\
  buildTargetName "Button / Light / Primary" "dark"
    = "Button /dark/ Primary"%string.
Proof.
  apply (debug_codec_on_spaced_names "Button" "Light" "Primary" "dark" LIGHT);
    reflexivity.
Defined.

Lemma debug_script_ignores_unspaced_names_witness :
  detectCurrentModeDebug "button/light/primary" = None /\
  buildTargetNameDebug "button/light/primary" "dark"
    = "button/light/primary"%string.
Proof.
  apply (debug_script_ignores_unspaced_names "button/light/primary" "dark").
  reflexivity.
Defined.

Lemma debug_tally_counts_the_selected_layers_witness :
  (exists n j : nat,
     switchModeDebug spaced_selection DARK =
       showMessage spaced_selection
         ("DEBUG - " ++ modeText DARK ++ " Mode: "
            ++ show_nat n ++ " would change, " ++ show_nat j ++ " skipped")
     /\ n = List.length (filter (would_change_debug DARK)
                           (selection spaced_selection))
     /\ n + j = List.length (selection spaced_selection))
  \/ (exists msg : string,
        switchModeDebug spaced_selection DARK
        = showMessage spaced_selection ("Error: " ++ msg)).
Proof.
  apply (debug_tally_counts_the_selected_layers spaced_selection DARK).
  discriminate.
Defined.

(** The debug script and the plugin on the same selection: the debug script
    sees one layer to change, by its own name; the plugin switches three, by
    their masters and styles. *)
Example debug_and_plugin_on_one_selection :
  shown (switchModeDebug spaced_selection DARK)
    = ["DEBUG - Dark Mode: 1 would change, 1 skipped"%string]
  /\ shown (switchMode spaced_selection DARK)
    = ["Switched to Dark Mode: 3 changed, 2 skipped"%string].
Proof. split; vm_compute; reflexivity. Qed.
